(** * nodgen-js: the account handlers of [Controllers/User.js]

    A shallow embedding of the eight request handlers ([register], [login],
    [updatePassword], [updateImage], [logout], [userInfo], [deleteUser],
    [refreshroute]) and of the [User] schema of [model/User.model.js].

    The handlers are [async] functions that mutate an Express response
    object and a document store and may throw.  They are embedded in a small
    state-and-exception monad [M] whose state is the pair of the response
    object and the world (collections, timers, mail outbox, console, clock).
    Request bodies are JavaScript objects whose fields are strings or absent;
    other JSON values are outside the model. *)

From Stdlib Require Import ZArith String Ascii List Bool Lia.
From stdpp Require Import base option gmap strings list.
Import ListNotations.

Local Open Scope string_scope.
Local Open Scope Z_scope.

(** ** JavaScript values *)

Module JS.

(** A thrown [Error] object: its [name] and its [message]. *)
Record Error := mkError { name : string; message : string }.

Definition new_Error (msg : string) : Error := mkError "Error" msg.

(** The values held by documents and object literals.  A missing field
    ([undefined]) is [None] at type [option value]. *)
Inductive value :=
| VStr (s : string)
| VBool (b : bool)
| VNum (n : Z)
| VDate (ms : Z)
| VObjectId (hex : string).

#[global] Instance value_eq_dec : EqDecision value.
Proof. solve_decision. Defined.

(** [!v] is [negb (truthy v)]. *)
Definition truthy (v : option value) : bool :=
  match v with
  | None => false
  | Some (VStr s) => negb (String.eqb s "")
  | Some (VBool b) => b
  | Some (VNum n) => negb (n =? 0)
  | Some (VDate _) => true
  | Some (VObjectId _) => true
  end.

(** [v === true] *)
Definition strict_eq_true (v : option value) : bool :=
  match v with
  | Some (VBool true) => true
  | _ => false
  end.

(** [a !== b] on two values that are strings or [undefined]. *)
Definition strict_neq (a b : option string) : bool :=
  match a, b with
  | None, None => false
  | Some x, Some y => negb (String.eqb x y)
  | _, _ => true
  end.

(** A string, or [undefined], inside a template literal. *)
Definition tmpl (o : option string) : string :=
  match o with Some s => s | None => "undefined" end.

(** An object literal [{ k1: v1, ... }]; a variable that is [undefined]
    leaves its key with the value [None]. *)
Definition object := list (string * option value).

Definition str (o : option string) : option value := VStr <$> o.

(** The double quote character, for messages that quote a value. *)
Definition dq : string := String (ascii_of_nat 34) EmptyString.

End JS.
Import JS.

(** ** ASCII helpers for the schema's setters *)

Definition lower_ascii (c : ascii) : ascii :=
  let n := nat_of_ascii c in
  if ((65 <=? n) && (n <=? 90))%nat then ascii_of_nat (n + 32) else c.

(** [String.prototype.toLowerCase], on the ASCII letters. *)
Fixpoint toLowerCase (s : string) : string :=
  match s with
  | EmptyString => EmptyString
  | String c r => String (lower_ascii c) (toLowerCase r)
  end.

Definition is_space (c : ascii) : bool :=
  let n := nat_of_ascii c in
  ((n =? 32) || ((9 <=? n) && (n <=? 13)))%nat.

Fixpoint trimStart (s : string) : string :=
  match s with
  | EmptyString => EmptyString
  | String c r => if is_space c then trimStart r else s
  end.

(** Drops the trailing white space: a suffix made of spaces only becomes
    the empty string. *)
Fixpoint trimEnd (s : string) : string :=
  match s with
  | EmptyString => EmptyString
  | String c r =>
      match trimEnd r with
      | EmptyString => if is_space c then EmptyString else String c EmptyString
      | r' => String c r'
      end
  end.

(** [String.prototype.trim], on the ASCII white space. *)
Definition trim (s : string) : string := trimEnd (trimStart s).

Definition is_hex (c : ascii) : bool :=
  let n := nat_of_ascii c in
  (((48 <=? n) && (n <=? 57)) || ((65 <=? n) && (n <=? 70))
   || ((97 <=? n) && (n <=? 102)))%nat.

Fixpoint all_chars (p : ascii -> bool) (s : string) : bool :=
  match s with
  | EmptyString => true
  | String c r => p c && all_chars p r
  end.

(** ** Base64 ([Buffer.prototype.toString("base64")]) *)

Module Base64.

Definition alphabet : string :=
  "ABCDEFGHIJKLMNOPQRSTUVWXYZabcdefghijklmnopqrstuvwxyz0123456789+/".

Definition digit (n : N) : ascii :=
  match String.get (N.to_nat n) alphabet with
  | Some c => c
  | None => "="%char
  end.

Definition pad : ascii := "="%char.

(** Three bytes give four digits; a last group of one or two bytes is padded
    with [=]. *)
Fixpoint encode (bs : list Byte.byte) : string :=
  match bs with
  | [] => EmptyString
  | [a] =>
      let x := Byte.to_N a in
      String (digit (N.shiftr x 2))
        (String (digit (N.shiftl (N.land x 3) 4))
           (String pad (String pad EmptyString)))
  | [a; b] =>
      let x := Byte.to_N a in
      let y := Byte.to_N b in
      String (digit (N.shiftr x 2))
        (String (digit (N.lor (N.shiftl (N.land x 3) 4) (N.shiftr y 4)))
           (String (digit (N.shiftl (N.land y 15) 2))
              (String pad EmptyString)))
  | a :: b :: c :: rest =>
      let x := Byte.to_N a in
      let y := Byte.to_N b in
      let z := Byte.to_N c in
      String (digit (N.shiftr x 2))
        (String (digit (N.lor (N.shiftl (N.land x 3) 4) (N.shiftr y 4)))
           (String (digit (N.lor (N.shiftl (N.land y 15) 2) (N.shiftr z 6)))
              (String (digit (N.land z 63)) (encode rest))))
  end.

End Base64.

(** ** The Express response object *)

Record CookieOptions := mkCookieOptions {
  secure : bool;
  sameSite : option string;
  maxAge : option Z;
  httpOnly : bool;
  expires : option Z
}.

Record Cookie := mkCookie {
  cookie_name : string;
  cookie_value : string;
  cookie_options : CookieOptions
}.

(** The bodies the handlers send: a bare string, an object of named members,
    a value read from a document, or a whole document. *)
#[warnings="-register-all"]
Inductive Json :=
| JStr (s : string)
| JVal (v : option value)
| JDoc (d : gmap string value)
| JObj (members : list (string * Json)).

(** [statusCode] starts at 200 and stays there until [res.status] is called;
    [sent] holds the body once [res.json] has been called. *)
Record Response := mkResponse {
  statusCode : Z;
  cookies : list Cookie;
  sent : option Json
}.

Definition fresh_response : Response := mkResponse 200 [] None.

(** ** The world outside the handler *)

(** Modelled from the spec: the OTP collection ([model/OTP.js] is not part of
    the sources): a record holds the email it was issued for, the numeric
    code and its creation time. *)
Record OtpDoc := mkOtpDoc {
  otp_email : string;
  otp_code : string;
  otp_createdAt : Z
}.

(** A call of [sendMailer(email, otp, username, templateKind)]. *)
Record Mail := mkMail {
  mail_to : option string;
  mail_otp : option string;
  mail_username : option value;
  mail_kind : string
}.

(** The closure handed to [setTimeout] by [deleteUser]: it captures the path
    id, the [userDetails] document and the response object of the request. *)
Inductive Job :=
| DeletionJob (id : string) (userDetails : gmap string value).

Record Timer := mkTimer {
  timer_delay : Z;
  timer_due : Z;
  timer_job : Job
}.

Record World := mkWorld {
  users : list (gmap string value);
  otps : list OtpDoc;
  timers : list Timer;
  outbox : list Mail;
  console : list string;
  clock : Z;
  entropy : nat
}.

Definition set_users (us : list (gmap string value)) (w : World) : World :=
  mkWorld us (otps w) (timers w) (outbox w) (console w) (clock w) (entropy w).
Definition set_otps (os : list OtpDoc) (w : World) : World :=
  mkWorld (users w) os (timers w) (outbox w) (console w) (clock w) (entropy w).
Definition set_timers (ts : list Timer) (w : World) : World :=
  mkWorld (users w) (otps w) ts (outbox w) (console w) (clock w) (entropy w).
Definition set_outbox (ms : list Mail) (w : World) : World :=
  mkWorld (users w) (otps w) (timers w) ms (console w) (clock w) (entropy w).
Definition set_console (ls : list string) (w : World) : World :=
  mkWorld (users w) (otps w) (timers w) (outbox w) ls (clock w) (entropy w).
Definition set_entropy (n : nat) (w : World) : World :=
  mkWorld (users w) (otps w) (timers w) (outbox w) (console w) (clock w) n.

(** ** The handler monad: state, exceptions and the [return] statement *)

Inductive Result (A : Type) :=
| Ok (a : A)
| Err (e : Error).
Arguments Ok {A} a.
Arguments Err {A} e.

Inductive Outcome (A : Type) :=
| Val (a : A)
| Throw (e : Error)
| Return.
Arguments Val {A} a.
Arguments Throw {A} e.
Arguments Return {A}.

Definition State : Type := Response * World.

Definition M (A : Type) : Type := State -> Outcome A * State.

Definition ret {A} (a : A) : M A := fun s => (Val a, s).

Definition bind {A B} (m : M A) (k : A -> M B) : M B :=
  fun s =>
    match m s with
    | (Val a, s') => k a s'
    | (Throw e, s') => (Throw e, s')
    | (Return, s') => (Return, s')
    end.

Definition throw {A} (e : Error) : M A := fun s => (Throw e, s).

(** The handler's [return]: it leaves the function, also from inside [try]. *)
Definition return_ {A} : M A := fun s => (Return, s).

Definition try_catch (body : M unit) (handler : Error -> M unit) : M unit :=
  fun s =>
    match body s with
    | (Throw e, s') => handler e s'
    | r => r
    end.

Definition lift {A} (f : World -> Result A * World) : M A :=
  fun s =>
    match f (snd s) with
    | (Ok a, w') => (Val a, (fst s, w'))
    | (Err e, w') => (Throw e, (fst s, w'))
    end.

Definition modify_world (f : World -> World) : M unit :=
  fun s => (Val tt, (fst s, f (snd s))).

Definition of_result {A} (r : Result A) : M A :=
  match r with
  | Ok a => ret a
  | Err e => throw e
  end.

Declare Scope handler_scope.
Delimit Scope handler_scope with handler.
Notation "'let*' x := m 'in' k" := (bind m (fun x => k))
  (at level 10, x name, m at level 100, k at level 200) : handler_scope.
Notation "m ;; k" := (bind m (fun _ => k))
  (at level 100, k at level 200, right associativity) : handler_scope.
Local Open Scope handler_scope.

(** A request handler runs on a fresh response object; what the client and
    the store see afterwards is the final state. *)
Definition run (h : M unit) (w : World) : Response * World :=
  snd (h (fresh_response, w)).

(** *** The response methods *)

Definition ERR_HTTP_HEADERS_SENT : Error :=
  mkError "Error" "Cannot set headers after they are sent to the client".

Definition res_status (code : Z) : M unit :=
  fun s => (Val tt, (mkResponse code (cookies (fst s)) (sent (fst s)), snd s)).

Definition res_cookie (n v : string) (o : CookieOptions) : M unit :=
  fun s =>
    match sent (fst s) with
    | Some _ => (Throw ERR_HTTP_HEADERS_SENT, s)
    | None =>
        (Val tt,
         (mkResponse (statusCode (fst s))
            (cookies (fst s) ++ [mkCookie n v o]) None, snd s))
    end.

Definition res_json (b : Json) : M unit :=
  fun s =>
    match sent (fst s) with
    | Some _ => (Throw ERR_HTTP_HEADERS_SENT, s)
    | None =>
        (Val tt, (mkResponse (statusCode (fst s)) (cookies (fst s)) (Some b), snd s))
    end.

Definition console_log (line : string) : M unit :=
  modify_world (fun w => set_console (console w ++ [line]) w).

(** [console.error(err)] *)
Definition console_error (e : Error) : M unit :=
  console_log (name e +:+ ": " +:+ message e).

(** [sendMailer] is fire-and-forget: the call is recorded, nothing is awaited. *)
Definition sendMailer (to otp : option string) (username : option value)
    (kind : string) : M unit :=
  modify_world (fun w => set_outbox (outbox w ++ [mkMail to otp username kind]) w).

Definition setTimeout (j : Job) (delay : Z) : M unit :=
  modify_world (fun w =>
    set_timers (timers w ++ [mkTimer delay (clock w + delay) j]) w).

(** One draw from the source of randomness. *)
Definition draw {A} (gen : nat -> A) : M A :=
  fun s => (Val (gen (entropy (snd s))), (fst s, set_entropy (S (entropy (snd s))) (snd s))).

(** ** External collaborators

    The libraries and helper modules the handlers call and whose code is not
    part of the sources: bcrypt, otp-generator, validator, the ObjectId
    generator and the token helpers of [utils/GenerateToken.js].  Random
    draws are functions of the world's entropy counter.  The two token
    helpers are taken to resolve: a rejection of [AccessToken] or
    [RefreshToken] is not represented, so what [register] and [login] do
    after such a rejection is outside the model. *)

Class Externals := {
  salt_of : nat -> string;
  digest : string -> string -> string;
  digest_matches : string -> string -> bool;
  otp_of : nat -> string;
  isEmail : string -> bool;
  objectId_of : nat -> string;
  AccessToken : option value -> string;
  RefreshToken : option value -> string;
  verifyRefreshToken : string -> Result (option string)
}.

(** ** The document store, as Mongoose presents it *)

Module Mongoose.

Inductive SchemaType := TString | TBoolean.

(** The options of one schema path; a validator carries its message. *)
Record PathOptions := mkPath {
  p_type : SchemaType;
  p_required : option string;
  p_trim : bool;
  p_lowercase : bool;
  p_minlength : option (nat * string);
  p_maxlength : option (nat * string);
  p_validate : option ((string -> bool) * string);
  p_unique : bool;
  p_default : option value
}.

Definition Schema := list (string * PathOptions).

Definition path_options (sch : Schema) (path : string) : option PathOptions :=
  snd <$> List.find (fun kv => String.eqb (fst kv) path) sch.

(** The paths Mongoose adds by itself: the id, the version key and, with
    [timestamps: true], the two dates. *)
Definition builtin_paths : list string := ["_id"; "createdAt"; "updatedAt"; "__v"].

Definition has_path (sch : Schema) (path : string) : bool :=
  match path_options sch path with
  | Some _ => true
  | None => existsb (String.eqb path) builtin_paths
  end.

(** Reading [doc.path] on a hydrated document: only the schema's paths have
    an accessor, every other property reads as [undefined]. *)
Definition get (sch : Schema) (d : gmap string value) (path : string) : option value :=
  if has_path sch path then d !! path else None.

(** [mongoose.Types.ObjectId.isValid] on a string: 24 hexadecimal digits. *)
Definition ObjectId_isValid (id : string) : bool :=
  (String.length id =? 24)%nat && all_chars is_hex id.

Definition CastError (v path : string) : Error :=
  mkError "CastError"
    ("Cast to ObjectId failed for value " +:+ dq +:+ v +:+ dq
     +:+ " (type string) at path " +:+ dq +:+ path +:+ dq
     +:+ " for model " +:+ dq +:+ "User" +:+ dq).

Definition cast_ObjectId (id : string) : Result value :=
  if ObjectId_isValid id then Ok (VObjectId (toLowerCase id))
  else Err (CastError id "_id").

(** The [trim] and [lowercase] options are setters: they run when a document
    is built, on updates and on query filters. *)
Definition apply_setters (o : PathOptions) (s : string) : string :=
  let s1 := if p_trim o then trim s else s in
  if p_lowercase o then toLowerCase s1 else s1.

(** Casting to the path's type.  The handlers only pass strings to [String]
    paths and booleans to [Boolean] paths; any other value is refused. *)
Definition cast (o : PathOptions) (v : value) : option value :=
  match p_type o, v with
  | TString, VStr s => Some (VStr (apply_setters o s))
  | TBoolean, VBool b => Some (VBool b)
  | _, _ => None
  end.

Definition obj_get (o : object) (k : string) : option value :=
  match List.find (fun kv => String.eqb (fst kv) k) o with
  | Some (_, v) => v
  | None => None
  end.

(** *** Building and validating a new document *)

(** Strict mode: only the schema's paths are read from the object; a path
    left [undefined] takes its default. *)
Fixpoint build (sch : Schema) (o : object) : gmap string value * list string :=
  match sch with
  | [] => (∅, [])
  | (path, opts) :: rest =>
      let '(d, errs) := build rest o in
      match obj_get o path with
      | Some v =>
          match cast opts v with
          | Some v' => (<[path := v']> d, errs)
          | None => (d, (path +:+ ": Cast failed") :: errs)
          end
      | None =>
          match p_default opts with
          | Some v' => (<[path := v']> d, errs)
          | None => (d, errs)
          end
      end
  end.

Definition check_required (o : PathOptions) (v : option value) : list string :=
  match p_required o with
  | None => []
  | Some msg =>
      match v with
      | None => [msg]
      | Some (VStr s) => if String.eqb s "" then [msg] else []
      | Some _ => []
      end
  end.

(** [minlength] and [maxlength].  Lengths are counted in the characters of
    the string as held here, one per byte; Mongoose counts UTF-16 code
    units, which is the same number on ASCII text. *)
Definition check_length (o : PathOptions) (v : option value) : list string :=
  match v with
  | Some (VStr s) =>
      match p_minlength o with
      | Some (n, msg) => if (String.length s <? n)%nat then [msg] else []
      | None => []
      end ++
      match p_maxlength o with
      | Some (n, msg) => if (n <? String.length s)%nat then [msg] else []
      | None => []
      end
  | _ => []
  end.

Definition check_validate (o : PathOptions) (v : option value) : list string :=
  match v, p_validate o with
  | Some (VStr s), Some (f, msg) => if f s then [] else [msg]
  | _, _ => []
  end.

(** The messages of the validators one path's value fails. *)
Definition path_errors (o : PathOptions) (v : option value) : list string :=
  check_required o v ++ check_length o v ++ check_validate o v.

Definition validate_path (path : string) (o : PathOptions) (d : gmap string value)
    : list string :=
  List.map (fun msg => path +:+ ": " +:+ msg) (path_errors o (d !! path)).

Definition validate (sch : Schema) (d : gmap string value) : list string :=
  List.concat (List.map (fun kv => validate_path (fst kv) (snd kv) d) sch).

Definition ValidationError (errs : list string) : Error :=
  mkError "ValidationError" ("User validation failed: " +:+ String.concat ", " errs).

(** The unique indexes of the collection. *)
Definition duplicate_key (sch : Schema) (us : list (gmap string value))
    (d : gmap string value) : option string :=
  fst <$> List.find
    (fun kv =>
       p_unique (snd kv)
       && match d !! fst kv with
          | Some v => existsb (fun u => bool_decide (u !! fst kv = Some v)) us
          | None => false
          end) sch.

Definition DuplicateKeyError (path : string) : Error :=
  mkError "MongoServerError"
    ("E11000 duplicate key error collection: users index: " +:+ path +:+ "_1").

(** *** Queries *)

(** A filter after casting: each path with the value a matching document
    holds there; [None] asks for the path to be missing. *)
Definition cast_condition (sch : Schema) (kv : string * option value)
    : Result (string * option value) :=
  match kv with
  | (path, Some (VStr s)) =>
      if String.eqb path "_id" then
        match cast_ObjectId s with
        | Ok v => Ok (path, Some v)
        | Err e => Err e
        end
      else
        match path_options sch path with
        | Some o =>
            match cast o (VStr s) with
            | Some v => Ok (path, Some v)
            | None => Err (mkError "CastError" ("Cast failed at path " +:+ path))
            end
        | None => Ok (path, Some (VStr s))
        end
  | (path, v) => Ok (path, v)
  end.

Fixpoint cast_filter (sch : Schema) (f : object) : Result object :=
  match f with
  | [] => Ok []
  | kv :: rest =>
      match cast_condition sch kv with
      | Err e => Err e
      | Ok c =>
          match cast_filter sch rest with
          | Err e => Err e
          | Ok cs => Ok (c :: cs)
          end
      end
  end.

Definition matches (f : object) (d : gmap string value) : bool :=
  forallb (fun kv => bool_decide (d !! fst kv = snd kv)) f.

(** Strict mode on an update: paths outside the schema are dropped, the
    others are cast; [undefined] values are left out. *)
Fixpoint cast_update (sch : Schema) (u : object) : list (string * value) :=
  match u with
  | [] => []
  | (path, v) :: rest =>
      match path_options sch path, v with
      | Some o, Some v0 =>
          match cast o v0 with
          | Some v' => (path, v') :: cast_update sch rest
          | None => cast_update sch rest
          end
      | _, _ => cast_update sch rest
      end
  end.

Definition apply_update (u : list (string * value)) (d : gmap string value)
    : gmap string value :=
  fold_right (fun kv acc => <[fst kv := snd kv]> acc) d u.

(** Replaces the first document that matches. *)
Fixpoint update_first (f : object) (g : gmap string value -> gmap string value)
    (us : list (gmap string value)) : list (gmap string value) :=
  match us with
  | [] => []
  | d :: rest => if matches f d then g d :: rest else d :: update_first f g rest
  end.

Fixpoint delete_first (f : object) (us : list (gmap string value))
    : list (gmap string value) :=
  match us with
  | [] => []
  | d :: rest => if matches f d then rest else d :: delete_first f rest
  end.

End Mongoose.

(** ** Requests *)

(** What a handler reads from [req]: the path parameter [id], the body's
    fields, the uploaded file's buffer, the audience claim the
    authentication middleware left in [req.payload], and the [RefreshToken]
    cookie. *)
Record Request := mkRequest {
  params_id : string;
  body : gmap string string;
  file : option (list Byte.byte);
  payload_aud : option string;
  cookie_RefreshToken : option string
}.

Definition defined {A} (o : option A) : bool :=
  match o with Some _ => true | None => false end.

Definition when (c : bool) (m : M unit) : M unit := if c then m else ret tt.

Section Handlers.

Context {E : Externals}.

(** *** [model/User.model.js] *)

Definition Username_options : Mongoose.PathOptions :=
  Mongoose.mkPath Mongoose.TString (Some "Username is required") true false
    (Some (2%nat, "Username must be at least 2 characters"))
    (Some (50%nat, "Username must not exceed 50 characters"))
    None true None.

Definition email_options : Mongoose.PathOptions :=
  Mongoose.mkPath Mongoose.TString (Some "Email is required") true true
    None
    (Some (50%nat, "Email must not exceed 50 characters"))
    (Some (isEmail, "Please provide a valid email")) true None.

Definition password_options : Mongoose.PathOptions :=
  Mongoose.mkPath Mongoose.TString (Some "Password is required") false false
    (Some (8%nat, "Password must be at least 8 characters"))
    None None false None.

Definition image_options : Mongoose.PathOptions :=
  Mongoose.mkPath Mongoose.TString None false false None None None false None.

(** [required: true] carries Mongoose's default message. *)
Definition isVerified_options : Mongoose.PathOptions :=
  Mongoose.mkPath Mongoose.TBoolean (Some "Path `isVerified` is required.")
    false false None None None false (Some (VBool false)).

Definition userSchema : Mongoose.Schema :=
  [ ("Username", Username_options);
    ("email", email_options);
    ("password", password_options);
    ("image", image_options);
    ("isVerified", isVerified_options) ].

(** [doc.path] on a [User] document. *)
Definition prop (d : gmap string value) (path : string) : option value :=
  Mongoose.get userSchema d path.

(** [User.create(obj)]: the id is drawn, the document is built, validated,
    checked against the unique indexes and inserted with its timestamps. *)
Definition create_user (o : object) (w : World)
    : Result (gmap string value) * World :=
  let id := objectId_of (entropy w) in
  let w1 := set_entropy (S (entropy w)) w in
  let '(d, cast_errs) := Mongoose.build userSchema o in
  match (cast_errs ++ Mongoose.validate userSchema d)%list with
  | (_ :: _) as errs => (Err (Mongoose.ValidationError errs), w1)
  | [] =>
      match Mongoose.duplicate_key userSchema (users w) d with
      | Some path => (Err (Mongoose.DuplicateKeyError path), w1)
      | None =>
          let doc :=
            <["_id" := VObjectId id]>
              (<["createdAt" := VDate (clock w)]>
                 (<["updatedAt" := VDate (clock w)]>
                    (<["__v" := VNum 0]> d))) in
          (Ok doc, set_users (users w ++ [doc]) w1)
      end
  end.

Definition User_create (o : object) : M (gmap string value) :=
  lift (create_user o).

(** What a query resolves to: the filter is cast, then the first document
    that matches is returned, or [null]. *)
Definition find_user (filter : object) (w : World)
    : Result (option (gmap string value)) :=
  match Mongoose.cast_filter userSchema filter with
  | Err e => Err e
  | Ok f => Ok (List.find (Mongoose.matches f) (users w))
  end.

Definition User_findOne (filter : object) : M (option (gmap string value)) :=
  lift (fun w => (find_user filter w, w)).

Definition User_findById (id : string) : M (option (gmap string value)) :=
  User_findOne [("_id", Some (VStr id))].

(** The two lookups the handlers make, as functions of the world. *)
Definition user_by_id (w : World) (id : string) : Result (option (gmap string value)) :=
  find_user [("_id", Some (VStr id))] w.

Definition user_by_email (w : World) (email : option string)
    : Result (option (gmap string value)) :=
  find_user [("email", str email)] w.

(** [User.findOneAndUpdate(filter, update)]: the update is cast under strict
    mode, [updatedAt] is refreshed, and the first match is rewritten.  The
    handlers ignore the document it resolves to. *)
Definition User_findOneAndUpdate (filter update : object) : M unit :=
  lift (fun w =>
    match Mongoose.cast_filter userSchema filter with
    | Err e => (Err e, w)
    | Ok f =>
        let u := Mongoose.cast_update userSchema update in
        let g d := <["updatedAt" := VDate (clock w)]> (Mongoose.apply_update u d) in
        (Ok tt, set_users (Mongoose.update_first f g (users w)) w)
    end).

Definition User_findByIdAndUpdate (id : string) (update : object) : M unit :=
  User_findOneAndUpdate [("_id", Some (VStr id))] update.

Definition User_deleteOne (filter : object) : M unit :=
  lift (fun w =>
    match Mongoose.cast_filter userSchema filter with
    | Err e => (Err e, w)
    | Ok f => (Ok tt, set_users (Mongoose.delete_first f (users w)) w)
    end).

(** [.select("-password")] *)
Definition select_minus_password (d : gmap string value) : gmap string value :=
  delete "password" d.

(** *** The OTP collection *)

(** Modelled from the spec: [OTP.create({ email, otp })] stores a record
    tied to the email ([model/OTP.js] is not part of the sources); without
    an email there is nothing to tie it to and the call rejects. *)
Definition OTP_create (email : option string) (otp : string) : M unit :=
  lift (fun w =>
    match email with
    | Some e => (Ok tt, set_otps (otps w ++ [mkOtpDoc e otp (clock w)]) w)
    | None => (Err (mkError "ValidationError" "OTP validation failed: email: Path `email` is required."), w)
    end).

(** Modelled from the spec: [OTP.findOne({ email, otp })] looks a record up
    by exact (email, code) match, with no expiry filter. *)
Definition find_otp (email otp : option string) (w : World) : option OtpDoc :=
  List.find
    (fun d => bool_decide (Some (otp_email d) = email)
              && bool_decide (Some (otp_code d) = otp)) (otps w).

Definition OTP_findOne (email otp : option string) : M (option OtpDoc) :=
  lift (fun w => (Ok (find_otp email otp w), w)).

(** *** bcrypt and otp-generator *)

Definition bcrypt_genSalt : M string := draw salt_of.

(** [bcrypt.hash(data, salt)] rejects when [data] is missing. *)
Definition hash_result (data : option string) (salt : string) : Result string :=
  match data with
  | Some d => Ok (digest d salt)
  | None => Err (new_Error "data and salt arguments required")
  end.

Definition bcrypt_hash (data : option string) (salt : string) : M string :=
  of_result (hash_result data salt).

(** [bcrypt.compare(data, hash)] rejects when an argument is missing or is
    not a string, and otherwise resolves to whether they match. *)
Definition compare_result (data : option string) (hash : option value) : Result bool :=
  match data, hash with
  | Some d, Some (VStr h) => Ok (digest_matches d h)
  | None, _ | _, None => Err (new_Error "data and hash arguments required")
  | _, _ => Err (new_Error "data must be a string or Buffer and hash must be a string")
  end.

Definition bcrypt_compare (data : option string) (hash : option value) : M bool :=
  of_result (compare_result data hash).

(** [otpGenerator.generate(6, { digits: true, ... })] *)
Definition otpGenerator_generate : M string := draw otp_of.

(** *** Cookie options *)

Definition access_options : CookieOptions :=
  mkCookieOptions true (Some "strict") (Some (20 * 60 * 1000)) false None.
Definition refresh_options : CookieOptions :=
  mkCookieOptions true (Some "strict") (Some (30 * 24 * 60 * 60 * 1000)) false None.
(** [{ httpOnly: true, expires: new Date(0) }] *)
Definition clear_options : CookieOptions :=
  mkCookieOptions false None None true (Some 0).

Definition generic_message : string := "Internal server error. Please try again later.".

(** The [catch] block shared in shape by [login], [updatePassword],
    [updateImage] and [userInfo]: the error is logged, the first branch whose
    message equals [err.message] sets the status and echoes that message, and
    without such a branch only the generic message is sent. *)
Definition respond_by_message (branches : list (string * Z)) (err : Error) : M unit :=
  console_error err ;;
  match List.find (fun b => String.eqb (message err) (fst b)) branches with
  | Some (msg, code) => res_status code ;; res_json (JObj [("error", JStr msg)])
  | None => res_json (JObj [("error", JStr generic_message)])
  end.

(** *** [Controllers/User.js] *)

(** Registering the user *)
Definition register (req : Request) : M unit :=
  try_catch
    (let firstName := body req !! "firstName" in
     let lastName := body req !! "lastName" in
     let Username := body req !! "Username" in
     let phoneNumber := body req !! "phoneNumber" in
     let email := body req !! "email" in
     let password := body req !! "password" in
     let* duplicate := User_findOne [("email", str email)] in
     when (defined duplicate)
       (res_status 409 ;;
        res_json (JObj [("message",
          JStr "User already exists. Try signing up with a different email.")]) ;;
        return_) ;;
     let* salt := bcrypt_genSalt in
     let* hashedPwd := bcrypt_hash password salt in
     let* otp := otpGenerator_generate in
     let* user := User_create
       [ ("Username", str Username);
         ("firstName", str firstName);
         ("lastName", str lastName);
         ("phoneNumber", str phoneNumber);
         ("email", str email);
         ("password", Some (VStr hashedPwd));
         ("image", Some (VStr ("https://api.dicebear.com/5.x/initials/svg?seed="
                               +:+ tmpl firstName +:+ " " +:+ tmpl lastName)));
         ("isVerified", Some (VBool false)) ] in
     (* [if (!user)]: a created document is an object, never falsy *)
     OTP_create email otp ;;
     sendMailer email (Some otp) (prop user "Username") "registration" ;;
     let accessToken := AccessToken (prop user "_id") in
     let refreshToken := RefreshToken (prop user "_id") in
     res_cookie "AccessToken" accessToken access_options ;;
     res_cookie "RefreshToken" refreshToken refresh_options ;;
     res_status 201 ;;
     res_json (JObj [ ("accessToken", JStr accessToken);
                      ("refreshToken", JStr refreshToken);
                      ("userId", JVal (prop user "_id"));
                      ("email", JVal (prop user "email")) ]))
    (fun error =>
       console_log ("Error during registration: " +:+ name error +:+ ": " +:+ message error) ;;
       res_status 500 ;;
       res_json (JObj [("message", JStr "Internal server error")])).

(** logging in the user *)
Definition login (req : Request) : M unit :=
  try_catch
    (let email := body req !! "email" in
     let password := body req !! "password" in
     let* found := User_findOne [("email", str email)] in
     match found with
     | None => throw (new_Error "User not found")
     | Some user =>
         let* isPasswordValid := bcrypt_compare password (prop user "password") in
         when (negb isPasswordValid) (throw (new_Error "Invalid credentials")) ;;
         let accessToken := AccessToken (prop user "_id") in
         let refreshToken := RefreshToken (prop user "_id") in
         res_cookie "AccessToken" accessToken access_options ;;
         res_cookie "RefreshToken" refreshToken refresh_options ;;
         res_status 200 ;;
         res_json (JObj [ ("accessToken", JStr accessToken);
                          ("refreshToken", JStr refreshToken);
                          ("userId", JVal (prop user "_id"));
                          ("email", JVal (prop user "email")) ])
     end)
    (respond_by_message
       [ ("User not found", 404); ("Invalid credentials", 401) ]).

Definition updatePassword (req : Request) : M unit :=
  try_catch
    (let id := params_id req in
     let* found := User_findById id in
     match found with
     | None => throw (new_Error "User not found")
     | Some userDetails =>
         when (negb (truthy (prop userDetails "isVerified")))
           (throw (new_Error "User is not verified")) ;;
         let oldPassword := body req !! "oldPassword" in
         let newPassword := body req !! "newPassword" in
         let confirmNewPassword := body req !! "confirmNewPassword" in
         when (strict_neq newPassword confirmNewPassword)
           (throw (new_Error "New passwords do not match")) ;;
         let* isPasswordMatch := bcrypt_compare oldPassword (prop userDetails "password") in
         when (negb isPasswordMatch) (throw (new_Error "Invalid old password")) ;;
         let* salt := bcrypt_genSalt in
         let* hashedPwd := bcrypt_hash newPassword salt in
         User_findByIdAndUpdate id [("password", Some (VStr hashedPwd))] ;;
         res_status 200 ;;
         res_json (JObj [("message", JStr "Password updated successfully")])
     end)
    (respond_by_message
       [ ("User not found", 404); ("User is not verified", 401);
         ("New passwords do not match", 400); ("Invalid old password", 401) ]).

(** Updating the image *)
Definition updateImage (req : Request) : M unit :=
  try_catch
    (let id := params_id req in
     when (negb (Mongoose.ObjectId_isValid id))
       (throw (new_Error "Invalid user ID format")) ;;
     let* found := User_findById id in
     match found with
     | None => throw (new_Error "User not found")
     | Some userDetails =>
         when (negb (truthy (prop userDetails "isVerified")))
           (throw (new_Error "User is not verified")) ;;
         match file req with
         | None => throw (new_Error "No image file provided")
         | Some buffer =>
             let base64Image := Base64.encode buffer in
             User_findByIdAndUpdate id [("image", Some (VStr base64Image))] ;;
             res_status 200 ;;
             res_json (JObj [("message", JStr "Image updated successfully")])
         end
     end)
    (respond_by_message
       [ ("Invalid user ID format", 400); ("User not found", 404);
         ("User is not verified", 401); ("No image file provided", 400) ]).

(** Logout the user *)
Definition logout (req : Request) : M unit :=
  res_cookie "AccessToken" "" clear_options ;;
  res_cookie "RefreshToken" "" clear_options ;;
  res_status 200 ;;
  res_json (JObj [("message", JStr "user logged out successfully")]).

(** Get the user Info *)
Definition userInfo (req : Request) : M unit :=
  try_catch
    (let id := params_id req in
     when (negb (Mongoose.ObjectId_isValid id))
       (throw (new_Error "Invalid user ID format")) ;;
     when (strict_neq (payload_aud req) (Some id))
       (throw (new_Error "Invalid access token")) ;;
     let* found := User_findById id in
     match found with
     | None => throw (new_Error "User not found")
     | Some user =>
         when (negb (truthy (prop user "isVerified")))
           (throw (new_Error "User is not verified")) ;;
         res_status 200 ;;
         res_json (JObj [("data", JDoc user)])
     end)
    (respond_by_message
       [ ("Invalid user ID format", 400); ("Invalid access token", 401);
         ("User not found", 404); ("User is not verified", 401) ]).

(** The module imports [User] and [OTP] but nothing named [Email]:
    evaluating the identifier throws. *)
Definition Email_deleteOne (filter : object) : M bool :=
  throw (mkError "ReferenceError" "Email is not defined").

(** The body of the closure [deleteUser] hands to [setTimeout]. *)
Definition deferred_deletion (id : string) (userDetails : gmap string value) : M unit :=
  try_catch
    (User_deleteOne [("_id", Some (VStr id))] ;;
     let* likedEmail := Email_deleteOne [("email", prop userDetails "email")] in
     when (negb likedEmail)
       (console_log (match prop userDetails "email" with
                     | Some (VStr e) => e
                     | _ => "undefined"
                     end +:+ " do not exist!! ")) ;;
     res_cookie "AccessToken" "" clear_options ;;
     res_cookie "RefreshToken" "" clear_options ;;
     res_status 200 ;;
     res_json (JObj [("message", JStr "user logged out successfully")]) ;;
     console_log "User and email is deleted and loggedout successfully")
    (fun err => console_log ("Error in the setTimeout" +:+ message err)).

(** A timer that fires runs its closure on the response object it captured,
    in the state the request left it in. *)
Definition run_job (j : Job) (stale : Response) (w : World) : Response * World :=
  match j with
  | DeletionJob id userDetails => snd (deferred_deletion id userDetails (stale, w))
  end.

(** Delete the user with the delayed deletion *)
Definition deleteUser (req : Request) : M unit :=
  try_catch
    (let id := params_id req in
     let email := body req !! "email" in
     let* found := User_findOne [("_id", Some (VStr id))] in
     match select_minus_password <$> found with
     | None => res_status 409 ;; res_json (JStr "No such user found") ;; return_
     | Some userDetails =>
         if truthy (prop userDetails "isVerified") then
           let otp := body req !! "otp" in
           let* foundOTP := OTP_findOne email otp in
           if defined foundOTP then
             User_findOneAndUpdate [("_id", Some (VStr id))]
               [("markedForDeletion", Some (VBool true))] ;;
             sendMailer email otp (prop userDetails "Username") "accountDeleted" ;;
             when (strict_eq_true (prop userDetails "markedForDeletion"))
               (setTimeout (DeletionJob id userDetails) (1000 * 60 * 60)) ;;
             res_status 200 ;; res_json (JStr "User Deleted Successfully") ;; return_
           else
             res_status 400 ;; res_json (JStr "OTP doesn't match") ;; return_
         else
           res_status 401 ;; res_json (JStr "Verify Your Email") ;; return_
     end)
    (fun err => res_status 500 ;; res_json (JObj [("error", JStr (message err))])).

(** [{ httpOnly: true, secure: true, sameSite: "strict", maxAge }] *)
Definition rotated_options (ms : Z) : CookieOptions :=
  mkCookieOptions true (Some "strict") (Some ms) true None.

Definition refreshroute (req : Request) : M unit :=
  try_catch
    (let refreshToken := cookie_RefreshToken req in
     match refreshToken with
     | None => res_status 401 ;; res_json (JObj [("error", JStr "Refresh token missing")]) ;; return_
     | Some token =>
         when (String.eqb token "")
           (res_status 401 ;; res_json (JObj [("error", JStr "Refresh token missing")]) ;; return_) ;;
         let* userId := of_result (verifyRefreshToken token) in
         when (negb (truthy (str userId)))
           (res_status 401 ;; res_json (JObj [("error", JStr "Invalid refresh token")]) ;; return_) ;;
         let accessToken := AccessToken (str userId) in
         let refToken := RefreshToken (str userId) in
         res_cookie "AccessToken" accessToken (rotated_options (20 * 60 * 1000)) ;;
         res_cookie "RefreshToken" refToken (rotated_options (30 * 24 * 60 * 60 * 1000)) ;;
         res_status 200 ;;
         res_json (JObj [("AccessToken", JStr accessToken); ("refreshToken", JStr refToken)])
     end)
    (fun error =>
       if String.eqb (name error) "JsonWebTokenError" then
         res_status 401 ;; res_json (JObj [("error", JStr "Invalid refresh token")]) ;; return_
       else if String.eqb (name error) "TokenExpiredError" then
         res_status 401 ;; res_json (JObj [("error", JStr "Refresh token expired")]) ;; return_
       else
         res_status 500 ;; res_json (JObj [("error", JStr "Internal Server Error")]) ;; return_).

End Handlers.

(** ** The outcomes the theorems speak of *)

(** The world after [console.error(e)]. *)
Definition logged (e : Error) (w : World) : World :=
  set_console (console w ++ [name e +:+ ": " +:+ message e]) w.

(** The response of a [catch] branch: a status and [{ error: msg }]. *)
Definition error_response (code : Z) (msg : string) : Response :=
  mkResponse code [] (Some (JObj [("error", JStr msg)])).

(** The stored document after a successful password update. *)
Definition with_password (h : string) (now : Z) (d : gmap string value)
    : gmap string value :=
  <["updatedAt" := VDate now]> (<["password" := VStr h]> d).

(** The stored document after a successful image update. *)
Definition with_image (b64 : string) (now : Z) (d : gmap string value)
    : gmap string value :=
  <["updatedAt" := VDate now]> (<["image" := VStr b64]> d).

(** The [email] path's setters: [trim], then [lowercase]. *)
Definition normalized (e : string) : string := toLowerCase (trim e).

Definition set_opt (k : string) (v : option value) (d : gmap string value)
    : gmap string value :=
  match v with Some x => <[k := x]> d | None => d end.

Definition avatar_url (req : Request) : string :=
  "https://api.dicebear.com/5.x/initials/svg?seed="
  +:+ tmpl (body req !! "firstName") +:+ " " +:+ tmpl (body req !! "lastName").

(** The object [register] hands to [User.create]. *)
Definition new_user_object (req : Request) (hashedPwd : string) : object :=
  [ ("Username", str (body req !! "Username"));
    ("firstName", str (body req !! "firstName"));
    ("lastName", str (body req !! "lastName"));
    ("phoneNumber", str (body req !! "phoneNumber"));
    ("email", str (body req !! "email"));
    ("password", Some (VStr hashedPwd));
    ("image", Some (VStr (avatar_url req)));
    ("isVerified", Some (VBool false)) ].

(** The document Mongoose builds from it: the names and the phone number are
    not paths of the schema and are dropped. *)
Definition built (req : Request) (h : string) : gmap string value :=
  set_opt "Username" (VStr <$> (trim <$> body req !! "Username"))
    (set_opt "email" (VStr <$> (normalized <$> body req !! "email"))
       (<["password" := VStr h]>
          (<["image" := VStr (avatar_url req)]>
             (<["isVerified" := VBool false]> ∅)))).

(** The document as stored: with its id, timestamps and version key. *)
Definition stored (id : string) (now : Z) (d : gmap string value)
    : gmap string value :=
  <["_id" := VObjectId id]>
    (<["createdAt" := VDate now]>
       (<["updatedAt" := VDate now]> (<["__v" := VNum 0]> d))).

Definition conflict_response : Response :=
  mkResponse 409 []
    (Some (JObj [("message",
       JStr "User already exists. Try signing up with a different email.")])).

Section Outcomes.

Context {E : Externals}.

(** The response of a successful [login]: both cookies and both tokens. *)
Definition login_response (u : gmap string value) : Response :=
  mkResponse 200
    [ mkCookie "AccessToken" (AccessToken (u !! "_id")) access_options;
      mkCookie "RefreshToken" (RefreshToken (u !! "_id")) refresh_options ]
    (Some (JObj [ ("accessToken", JStr (AccessToken (u !! "_id")));
                  ("refreshToken", JStr (RefreshToken (u !! "_id")));
                  ("userId", JVal (u !! "_id"));
                  ("email", JVal (u !! "email")) ])).

(** The response of a successful [register]. *)
Definition register_response (doc : gmap string value) : Response :=
  mkResponse 201
    [ mkCookie "AccessToken" (AccessToken (doc !! "_id")) access_options;
      mkCookie "RefreshToken" (RefreshToken (doc !! "_id")) refresh_options ]
    (Some (JObj [ ("accessToken", JStr (AccessToken (doc !! "_id")));
                  ("refreshToken", JStr (RefreshToken (doc !! "_id")));
                  ("userId", JVal (doc !! "_id"));
                  ("email", JVal (doc !! "email")) ])).

End Outcomes.

(** ** A concrete instance of the collaborators, for running the handlers *)

Module Fixture.

Fixpoint pad_to (n : nat) (c : ascii) (s : string) : string :=
  match n with
  | O => EmptyString
  | S n' =>
      match s with
      | EmptyString => String c (pad_to n' c EmptyString)
      | String a r => String a (pad_to n' c r)
      end
  end.

Fixpoint digits_of (fuel n : nat) (acc : string) : string :=
  match fuel with
  | O => acc
  | S fuel' =>
      let acc' := String (ascii_of_nat (48 + n mod 10)) acc in
      if (n <? 10)%nat then acc' else digits_of fuel' (n / 10) acc'
  end.

Definition decimal (n : nat) : string := digits_of (S n) n EmptyString.

Fixpoint has_at (s : string) : bool :=
  match s with
  | EmptyString => false
  | String c r => Ascii.eqb c "@"%char || has_at r
  end.

Definition subject (v : option value) : string :=
  match v with
  | Some (VObjectId h) => h
  | Some (VStr s) => s
  | _ => "undefined"
  end.

(** Salts are 29 characters and digests 60, as bcrypt's are; the digest
    keeps the salt in front so that a comparison can recompute it. *)
Definition toy_salt (n : nat) : string := "$2b$10$" +:+ pad_to 22 "."%char (decimal n).
Definition toy_digest (d s : string) : string := pad_to 60 "."%char (s +:+ d).
Definition toy_matches (d h : string) : bool :=
  String.eqb h (toy_digest d (String.substring 0 29 h)).

Definition toy_verify (t : string) : Result (option string) :=
  if String.prefix "refresh:" t
  then Ok (Some (String.substring 8 (String.length t - 8) t))
  else Err (mkError "JsonWebTokenError" "jwt malformed").

Definition toy : Externals := {|
  salt_of := toy_salt;
  digest := toy_digest;
  digest_matches := toy_matches;
  otp_of := fun n => "48" +:+ pad_to 4 "0"%char (decimal (3000 + n));
  isEmail := has_at;
  objectId_of := fun n => pad_to 24 "0"%char ("65a1" +:+ decimal n);
  AccessToken := fun v => "access:" +:+ subject v;
  RefreshToken := fun v => "refresh:" +:+ subject v;
  verifyRefreshToken := toy_verify
|}.

Definition empty_world : World := mkWorld [] [] [] [] [] 1700000000000 0.

Definition post (fields : list (string * string)) : Request :=
  mkRequest "" (list_to_map fields) None None None.

Definition on_id (id : string) (fields : list (string * string)) : Request :=
  mkRequest id (list_to_map fields) None (Some id) None.

Definition alice : Request :=
  post [ ("firstName", "Alice"); ("lastName", "Liddell"); ("Username", "alice");
         ("phoneNumber", "5550100"); ("email", "Alice@X.com");
         ("password", "longenough1") ].

(** *** A running scenario *)

(** The world after Alice registered, and the same world once the
    verification flow (not part of the sources) has flipped her flag. *)
Definition registered : World := snd (run (register (E := toy) alice) empty_world).

Definition verify (w : World) : World :=
  set_users (List.map (fun d => <["isVerified" := VBool true]> d) (users w)) w.

Definition verified : World := verify registered.

Definition alice_id : string := "65a120000000000000000000".

Definition alice_otp : string := "483001".

Definition alice_doc (w : World) : gmap string value :=
  match users w with
  | d :: _ => d
  | [] => ∅
  end.

Definition delete_with_otp : Request :=
  on_id alice_id [("email", "Alice@X.com"); ("otp", alice_otp)].

Definition delete_wrong_otp : Request :=
  on_id alice_id [("email", "Alice@X.com"); ("otp", "000000")].

Definition delete_malformed : Request :=
  on_id "abc" [("email", "Alice@X.com"); ("otp", alice_otp)].

Definition info_request : Request := on_id alice_id [].

Definition password_change : Request :=
  on_id alice_id [ ("oldPassword", "longenough1"); ("newPassword", "evenlonger22");
                   ("confirmNewPassword", "evenlonger22") ].

(** The three bytes of [Man]. *)
Definition image_upload : Request :=
  mkRequest alice_id ∅ (Some [Byte.x4d; Byte.x61; Byte.x6e]) (Some alice_id) None.

(** A well-formed id nobody has, and no file. *)
Definition upload_nothing_for_nobody : Request :=
  mkRequest "0123456789abcdef01234567" ∅ None None None.

Definition bob_with_password (p : string) : Request :=
  post [ ("firstName", "Bob"); ("lastName", "Builder"); ("Username", "bob");
         ("phoneNumber", "5550101"); ("email", "bob@x.com"); ("password", p) ].

Definition login_without_password : Request := post [("email", "alice@x.com")].

End Fixture.

(** ** Running a handler symbolically *)

(** Unfolds the monad's combinators and the response methods, and nothing of
    the store. *)
Ltac mstep :=
  cbv beta iota zeta delta
    [bind ret throw return_ try_catch lift when of_result modify_world
     res_status res_json res_cookie console_log console_error sendMailer
     setTimeout draw run fst snd defined negb fresh_response
     statusCode cookies sent fmap option_fmap option_map].

Section Lookups.

Context {E : Externals}.

Lemma prop_declared (d : gmap string value) (path : string) :
  Mongoose.has_path userSchema path = true -> prop d path = d !! path.
Proof. intros H. unfold prop, Mongoose.get. now rewrite H. Qed.

(** The schema declares no [markedForDeletion] path, so the property reads
    as [undefined] on every document. *)
Lemma prop_markedForDeletion (d : gmap string value) :
  prop d "markedForDeletion" = None.
Proof. reflexivity. Qed.

Lemma cast_id_filter (id : string) :
  Mongoose.cast_filter userSchema [("_id", Some (VStr id))] =
  if Mongoose.ObjectId_isValid id
  then Ok [("_id", Some (VObjectId (toLowerCase id)))]
  else Err (Mongoose.CastError id "_id").
Proof.
  cbn. unfold Mongoose.cast_ObjectId.
  now destruct (Mongoose.ObjectId_isValid id).
Qed.

Lemma user_by_id_invalid (w : World) (id : string) :
  Mongoose.ObjectId_isValid id = false ->
  user_by_id w id = Err (Mongoose.CastError id "_id").
Proof.
  intros H. unfold user_by_id, find_user. now rewrite cast_id_filter, H.
Qed.

Lemma user_by_id_valid (w : World) (id : string) r :
  user_by_id w id = Ok r -> Mongoose.ObjectId_isValid id = true.
Proof.
  destruct (Mongoose.ObjectId_isValid id) eqn:Hid; [reflexivity|].
  rewrite user_by_id_invalid by assumption. discriminate.
Qed.

Lemma user_by_id_stored (w : World) (id : string) (u : gmap string value) :
  user_by_id w id = Ok (Some u) ->
  In u (users w) /\ u !! "_id" = Some (VObjectId (toLowerCase id)).
Proof.
  unfold user_by_id, find_user. rewrite cast_id_filter.
  destruct (Mongoose.ObjectId_isValid id); [|discriminate].
  intros H. injection H as H. apply List.find_some in H as [Hin Hm].
  split; [assumption|].
  cbn in Hm. rewrite andb_true_r in Hm. now apply bool_decide_eq_true in Hm.
Qed.

End Lookups.

(** ** Facts about the combinators and the store *)

Lemma strict_neq_true (a b : option string) : a <> b -> strict_neq a b = true.
Proof.
  destruct a as [x|], b as [y|]; cbn; try reflexivity.
  - intros H. destruct (String.eqb_spec x y); [subst; congruence|reflexivity].
  - congruence.
Qed.

Lemma strict_neq_refl (a : option string) : strict_neq a a = false.
Proof. destruct a as [x|]; cbn; [now rewrite String.eqb_refl|reflexivity]. Qed.

Lemma find_update_first (f : object)
    (g : gmap string value -> gmap string value) (us : list (gmap string value)) :
  (forall d, Mongoose.matches f (g d) = Mongoose.matches f d) ->
  List.find (Mongoose.matches f) (Mongoose.update_first f g us)
  = g <$> List.find (Mongoose.matches f) us.
Proof.
  intros Hg. induction us as [|d us IH]; [reflexivity|].
  cbn [Mongoose.update_first List.find].
  destruct (Mongoose.matches f d) eqn:Hd.
  - cbn [List.find]. now rewrite Hg, Hd.
  - cbn [List.find]. now rewrite Hd.
Qed.

Lemma matches_id_insert (v : option value) (k : string) (x : value)
    (d : gmap string value) :
  k <> "_id" ->
  Mongoose.matches [("_id", v)] (<[k := x]> d) = Mongoose.matches [("_id", v)] d.
Proof.
  intros Hk. unfold Mongoose.matches. cbn [forallb fst snd].
  now rewrite lookup_insert_ne.
Qed.

Section HandlerCases.

Context {E : Externals}.

Ltac lookup_id H :=
  unfold User_findById, User_findOne; mstep;
  unfold user_by_id in H; rewrite H; mstep.

(** *** [userInfo] *)

Lemma userInfo_invalid_id (req : Request) (w : World) :
  Mongoose.ObjectId_isValid (params_id req) = false ->
  run (userInfo req) w =
  (error_response 400 "Invalid user ID format",
   logged (new_Error "Invalid user ID format") w).
Proof.
  intros Hid. unfold userInfo. rewrite Hid. mstep. reflexivity.
Qed.

Lemma userInfo_bad_audience (req : Request) (w : World) :
  Mongoose.ObjectId_isValid (params_id req) = true ->
  payload_aud req <> Some (params_id req) ->
  run (userInfo req) w =
  (error_response 401 "Invalid access token",
   logged (new_Error "Invalid access token") w).
Proof.
  intros Hid Haud. unfold userInfo.
  rewrite Hid, (strict_neq_true _ _ Haud). mstep. reflexivity.
Qed.

Lemma userInfo_not_found (req : Request) (w : World) :
  payload_aud req = Some (params_id req) ->
  user_by_id w (params_id req) = Ok None ->
  run (userInfo req) w =
  (error_response 404 "User not found", logged (new_Error "User not found") w).
Proof.
  intros Haud Hu. unfold userInfo.
  rewrite (user_by_id_valid _ _ _ Hu), Haud, strict_neq_refl.
  lookup_id Hu. reflexivity.
Qed.

Lemma userInfo_unverified (req : Request) (w : World) (u : gmap string value) :
  payload_aud req = Some (params_id req) ->
  user_by_id w (params_id req) = Ok (Some u) ->
  truthy (u !! "isVerified") = false ->
  run (userInfo req) w =
  (error_response 401 "User is not verified",
   logged (new_Error "User is not verified") w).
Proof.
  intros Haud Hu Hv. unfold userInfo.
  rewrite (user_by_id_valid _ _ _ Hu), Haud, strict_neq_refl.
  lookup_id Hu. rewrite prop_declared, Hv by reflexivity. mstep. reflexivity.
Qed.

Lemma userInfo_ok (req : Request) (w : World) (u : gmap string value) :
  payload_aud req = Some (params_id req) ->
  user_by_id w (params_id req) = Ok (Some u) ->
  truthy (u !! "isVerified") = true ->
  run (userInfo req) w = (mkResponse 200 [] (Some (JObj [("data", JDoc u)])), w).
Proof.
  intros Haud Hu Hv. unfold userInfo.
  rewrite (user_by_id_valid _ _ _ Hu), Haud, strict_neq_refl.
  lookup_id Hu. rewrite prop_declared, Hv by reflexivity. mstep. reflexivity.
Qed.

(** *** [updatePassword] *)

Lemma updatePassword_not_found (req : Request) (w : World) :
  user_by_id w (params_id req) = Ok None ->
  run (updatePassword req) w =
  (error_response 404 "User not found", logged (new_Error "User not found") w).
Proof.
  intros Hu. unfold updatePassword. lookup_id Hu. reflexivity.
Qed.

Lemma updatePassword_unverified (req : Request) (w : World) (u : gmap string value) :
  user_by_id w (params_id req) = Ok (Some u) ->
  truthy (u !! "isVerified") = false ->
  run (updatePassword req) w =
  (error_response 401 "User is not verified",
   logged (new_Error "User is not verified") w).
Proof.
  intros Hu Hv. unfold updatePassword. lookup_id Hu.
  rewrite prop_declared, Hv by reflexivity. mstep. reflexivity.
Qed.

Lemma updatePassword_mismatch (req : Request) (w : World) (u : gmap string value) :
  user_by_id w (params_id req) = Ok (Some u) ->
  truthy (u !! "isVerified") = true ->
  body req !! "newPassword" <> body req !! "confirmNewPassword" ->
  run (updatePassword req) w =
  (error_response 400 "New passwords do not match",
   logged (new_Error "New passwords do not match") w).
Proof.
  intros Hu Hv Hne. unfold updatePassword. lookup_id Hu.
  rewrite prop_declared, Hv by reflexivity. mstep.
  rewrite (strict_neq_true _ _ Hne). mstep. reflexivity.
Qed.

Lemma updatePassword_wrong_old (req : Request) (w : World) (u : gmap string value) :
  user_by_id w (params_id req) = Ok (Some u) ->
  truthy (u !! "isVerified") = true ->
  body req !! "newPassword" = body req !! "confirmNewPassword" ->
  compare_result (body req !! "oldPassword") (u !! "password") = Ok false ->
  run (updatePassword req) w =
  (error_response 401 "Invalid old password",
   logged (new_Error "Invalid old password") w).
Proof.
  intros Hu Hv Heq Hc. unfold updatePassword, bcrypt_compare. lookup_id Hu.
  rewrite prop_declared, Hv by reflexivity. mstep.
  rewrite Heq, strict_neq_refl. mstep.
  rewrite prop_declared, Hc by reflexivity. mstep. reflexivity.
Qed.

Lemma updatePassword_ok (req : Request) (w : World) (u : gmap string value)
    (np : string) :
  user_by_id w (params_id req) = Ok (Some u) ->
  truthy (u !! "isVerified") = true ->
  body req !! "newPassword" = Some np ->
  body req !! "confirmNewPassword" = Some np ->
  compare_result (body req !! "oldPassword") (u !! "password") = Ok true ->
  run (updatePassword req) w =
  (mkResponse 200 [] (Some (JObj [("message", JStr "Password updated successfully")])),
   set_users
     (Mongoose.update_first [("_id", Some (VObjectId (toLowerCase (params_id req))))]
        (with_password (digest np (salt_of (entropy w))) (clock w)) (users w))
     (set_entropy (S (entropy w)) w)).
Proof.
  intros Hu Hv Hn Hcf Hc.
  unfold updatePassword, bcrypt_compare, bcrypt_hash, bcrypt_genSalt,
    User_findByIdAndUpdate, User_findOneAndUpdate.
  lookup_id Hu.
  rewrite prop_declared, Hv by reflexivity. mstep.
  rewrite Hn, Hcf, strict_neq_refl. mstep.
  rewrite prop_declared, Hc by reflexivity. mstep.
  unfold hash_result. mstep.
  rewrite cast_id_filter, (user_by_id_valid _ _ _ Hu). mstep.
  reflexivity.
Qed.

Lemma user_after_password_update (w : World) (id : string)
    (u : gmap string value) (h : string) :
  user_by_id w id = Ok (Some u) ->
  user_by_id
    (set_users
       (Mongoose.update_first [("_id", Some (VObjectId (toLowerCase id)))]
          (with_password h (clock w)) (users w))
       (set_entropy (S (entropy w)) w)) id
  = Ok (Some (with_password h (clock w) u)).
Proof.
  intros Hu. pose proof (user_by_id_valid _ _ _ Hu) as Hid.
  unfold user_by_id, find_user in *. rewrite cast_id_filter, Hid in *.
  injection Hu as Hu. cbn [users set_users set_entropy].
  rewrite find_update_first, Hu; [reflexivity|].
  intros d. unfold with_password. now rewrite !matches_id_insert by discriminate.
Qed.

(** *** [updateImage] *)

Lemma updateImage_invalid_id (req : Request) (w : World) :
  Mongoose.ObjectId_isValid (params_id req) = false ->
  run (updateImage req) w =
  (error_response 400 "Invalid user ID format",
   logged (new_Error "Invalid user ID format") w).
Proof.
  intros Hid. unfold updateImage. rewrite Hid. mstep. reflexivity.
Qed.

Lemma updateImage_not_found (req : Request) (w : World) :
  user_by_id w (params_id req) = Ok None ->
  run (updateImage req) w =
  (error_response 404 "User not found", logged (new_Error "User not found") w).
Proof.
  intros Hu. unfold updateImage. rewrite (user_by_id_valid _ _ _ Hu).
  lookup_id Hu. reflexivity.
Qed.

Lemma updateImage_unverified (req : Request) (w : World) (u : gmap string value) :
  user_by_id w (params_id req) = Ok (Some u) ->
  truthy (u !! "isVerified") = false ->
  run (updateImage req) w =
  (error_response 401 "User is not verified",
   logged (new_Error "User is not verified") w).
Proof.
  intros Hu Hv. unfold updateImage. rewrite (user_by_id_valid _ _ _ Hu).
  lookup_id Hu. rewrite prop_declared, Hv by reflexivity. mstep. reflexivity.
Qed.

Lemma updateImage_no_file (req : Request) (w : World) (u : gmap string value) :
  user_by_id w (params_id req) = Ok (Some u) ->
  truthy (u !! "isVerified") = true ->
  file req = None ->
  run (updateImage req) w =
  (error_response 400 "No image file provided",
   logged (new_Error "No image file provided") w).
Proof.
  intros Hu Hv Hf. unfold updateImage. rewrite (user_by_id_valid _ _ _ Hu).
  lookup_id Hu. rewrite prop_declared, Hv by reflexivity. mstep.
  rewrite Hf. mstep. reflexivity.
Qed.

Lemma updateImage_ok (req : Request) (w : World) (u : gmap string value)
    (buffer : list Byte.byte) :
  user_by_id w (params_id req) = Ok (Some u) ->
  truthy (u !! "isVerified") = true ->
  file req = Some buffer ->
  run (updateImage req) w =
  (mkResponse 200 [] (Some (JObj [("message", JStr "Image updated successfully")])),
   set_users
     (Mongoose.update_first [("_id", Some (VObjectId (toLowerCase (params_id req))))]
        (with_image (Base64.encode buffer) (clock w)) (users w)) w).
Proof.
  intros Hu Hv Hf.
  unfold updateImage, User_findByIdAndUpdate, User_findOneAndUpdate.
  rewrite (user_by_id_valid _ _ _ Hu).
  lookup_id Hu. rewrite prop_declared, Hv by reflexivity. mstep.
  rewrite Hf. mstep.
  rewrite cast_id_filter, (user_by_id_valid _ _ _ Hu). mstep.
  reflexivity.
Qed.

Lemma user_after_image_update (w : World) (id : string)
    (u : gmap string value) (b64 : string) :
  user_by_id w id = Ok (Some u) ->
  user_by_id
    (set_users
       (Mongoose.update_first [("_id", Some (VObjectId (toLowerCase id)))]
          (with_image b64 (clock w)) (users w)) w) id
  = Ok (Some (with_image b64 (clock w) u)).
Proof.
  intros Hu. pose proof (user_by_id_valid _ _ _ Hu) as Hid.
  unfold user_by_id, find_user in *. rewrite cast_id_filter, Hid in *.
  injection Hu as Hu. cbn [users set_users].
  rewrite find_update_first, Hu; [reflexivity|].
  intros d. unfold with_image. now rewrite !matches_id_insert by discriminate.
Qed.

(** *** [login] *)

Ltac lookup_email H :=
  unfold User_findOne; mstep; unfold user_by_email in H; rewrite H; mstep.

Lemma login_ok (req : Request) (w : World) (u : gmap string value) :
  user_by_email w (body req !! "email") = Ok (Some u) ->
  compare_result (body req !! "password") (u !! "password") = Ok true ->
  run (login req) w = (login_response u, w).
Proof.
  intros Hu Hc. unfold login, bcrypt_compare. lookup_email Hu.
  rewrite prop_declared, Hc by reflexivity. mstep.
  rewrite !prop_declared by reflexivity. reflexivity.
Qed.

Lemma login_not_found (req : Request) (w : World) :
  user_by_email w (body req !! "email") = Ok None ->
  run (login req) w =
  (error_response 404 "User not found", logged (new_Error "User not found") w).
Proof.
  intros Hu. unfold login. lookup_email Hu. reflexivity.
Qed.

Lemma login_wrong_password (req : Request) (w : World) (u : gmap string value) :
  user_by_email w (body req !! "email") = Ok (Some u) ->
  compare_result (body req !! "password") (u !! "password") = Ok false ->
  run (login req) w =
  (error_response 401 "Invalid credentials",
   logged (new_Error "Invalid credentials") w).
Proof.
  intros Hu Hc. unfold login, bcrypt_compare. lookup_email Hu.
  rewrite prop_declared, Hc by reflexivity. mstep. reflexivity.
Qed.

(** A failure of [bcrypt.compare] itself is not one of the two messages the
    [catch] block knows: the status is never set and stays at 200. *)
Lemma login_compare_rejects (req : Request) (w : World) (u : gmap string value)
    (e : Error) :
  user_by_email w (body req !! "email") = Ok (Some u) ->
  compare_result (body req !! "password") (u !! "password") = Err e ->
  message e <> "User not found" ->
  message e <> "Invalid credentials" ->
  run (login req) w = (error_response 200 generic_message, logged e w).
Proof.
  intros Hu Hc H1 H2. unfold login, bcrypt_compare. lookup_email Hu.
  rewrite prop_declared, Hc by reflexivity. mstep.
  unfold respond_by_message. mstep. cbn [List.find fst].
  apply String.eqb_neq in H1, H2. rewrite H1, H2. mstep. reflexivity.
Qed.

(** *** [deleteUser] *)

Ltac lookup_delete H :=
  unfold deleteUser, User_findOne; mstep;
  unfold user_by_id in H; rewrite H; mstep.

Lemma select_keeps (u : gmap string value) (path : string) :
  path <> "password" -> select_minus_password u !! path = u !! path.
Proof. intros H. unfold select_minus_password. now rewrite lookup_delete_ne. Qed.

Lemma deleteUser_not_found (req : Request) (w : World) :
  user_by_id w (params_id req) = Ok None ->
  run (deleteUser req) w = (mkResponse 409 [] (Some (JStr "No such user found")), w).
Proof. intros Hu. lookup_delete Hu. reflexivity. Qed.

Lemma deleteUser_unverified (req : Request) (w : World) (u : gmap string value) :
  user_by_id w (params_id req) = Ok (Some u) ->
  truthy (u !! "isVerified") = false ->
  run (deleteUser req) w = (mkResponse 401 [] (Some (JStr "Verify Your Email")), w).
Proof.
  intros Hu Hv. lookup_delete Hu.
  rewrite prop_declared, select_keeps, Hv by (reflexivity || discriminate).
  mstep. reflexivity.
Qed.

Lemma deleteUser_otp_mismatch (req : Request) (w : World) (u : gmap string value) :
  user_by_id w (params_id req) = Ok (Some u) ->
  truthy (u !! "isVerified") = true ->
  find_otp (body req !! "email") (body req !! "otp") w = None ->
  run (deleteUser req) w = (mkResponse 400 [] (Some (JStr "OTP doesn't match")), w).
Proof.
  intros Hu Hv Ho. lookup_delete Hu.
  rewrite prop_declared, select_keeps, Hv by (reflexivity || discriminate).
  unfold OTP_findOne. mstep. rewrite Ho. mstep. reflexivity.
Qed.

(** With a matching OTP the update is cast to nothing but the refreshed
    [updatedAt], the mail is sent, and the guard in front of [setTimeout]
    reads [undefined]: no timer is added. *)
Lemma deleteUser_otp_match (req : Request) (w : World) (u : gmap string value)
    (o : OtpDoc) :
  user_by_id w (params_id req) = Ok (Some u) ->
  truthy (u !! "isVerified") = true ->
  find_otp (body req !! "email") (body req !! "otp") w = Some o ->
  run (deleteUser req) w =
  (mkResponse 200 [] (Some (JStr "User Deleted Successfully")),
   set_outbox
     (outbox w ++ [mkMail (body req !! "email") (body req !! "otp")
                     (u !! "Username") "accountDeleted"])
     (set_users
        (Mongoose.update_first
           [("_id", Some (VObjectId (toLowerCase (params_id req))))]
           (fun d => <["updatedAt" := VDate (clock w)]> d) (users w)) w)).
Proof.
  intros Hu Hv Ho. lookup_delete Hu.
  rewrite prop_declared, select_keeps, Hv by (reflexivity || discriminate).
  unfold OTP_findOne, User_findOneAndUpdate. mstep. rewrite Ho. mstep.
  rewrite cast_id_filter, (user_by_id_valid _ _ _ Hu). mstep.
  rewrite prop_markedForDeletion.
  rewrite prop_declared, select_keeps by (reflexivity || discriminate).
  reflexivity.
Qed.

(** A malformed id makes the first query reject with a cast error, and the
    [catch] block sends that error's own message. *)
Lemma deleteUser_cast_error (req : Request) (w : World) :
  Mongoose.ObjectId_isValid (params_id req) = false ->
  run (deleteUser req) w =
  (error_response 500 (message (Mongoose.CastError (params_id req) "_id")), w).
Proof.
  intros Hid. unfold deleteUser, User_findOne. mstep.
  pose proof (user_by_id_invalid w _ Hid) as Hu. unfold user_by_id in Hu.
  rewrite Hu. mstep. reflexivity.
Qed.

End HandlerCases.

(** ** [register] *)

Section Register.

Context {E : Externals}.

Lemma build_new_user (req : Request) (h : string) :
  Mongoose.build userSchema (new_user_object req h) = (built req h, []).
Proof.
  unfold new_user_object, built.
  destruct (body req !! "Username"), (body req !! "email"); reflexivity.
Qed.

Ltac by_cases_on_body req :=
  unfold built; destruct (body req !! "Username"), (body req !! "email"); reflexivity.

Lemma built_Username (req : Request) (h : string) :
  built req h !! "Username" = VStr <$> (trim <$> body req !! "Username").
Proof. by_cases_on_body req. Qed.

Lemma built_email (req : Request) (h : string) :
  built req h !! "email" = VStr <$> (normalized <$> body req !! "email").
Proof. by_cases_on_body req. Qed.

Lemma built_password (req : Request) (h : string) :
  built req h !! "password" = Some (VStr h).
Proof. by_cases_on_body req. Qed.

Lemma built_image (req : Request) (h : string) :
  built req h !! "image" = Some (VStr (avatar_url req)).
Proof. by_cases_on_body req. Qed.

Lemma built_isVerified (req : Request) (h : string) :
  built req h !! "isVerified" = Some (VBool false).
Proof. by_cases_on_body req. Qed.

(** A value of 60 characters, as every bcrypt digest is, passes the
    [password] path's validators: it is present and at least 8 long. *)
Lemma password_path_accepts_digest (h : string) :
  String.length h = 60%nat ->
  Mongoose.path_errors password_options (Some (VStr h)) = [].
Proof.
  intros Hh. unfold Mongoose.path_errors, Mongoose.check_required,
    Mongoose.check_length, Mongoose.check_validate.
  cbn [password_options Mongoose.p_required Mongoose.p_minlength
       Mongoose.p_maxlength Mongoose.p_validate].
  rewrite Hh. destruct h; [discriminate|]. reflexivity.
Qed.

Lemma validate_built (req : Request) (h : string) :
  String.length h = 60%nat ->
  Mongoose.validate userSchema (built req h) =
  (Mongoose.validate_path "Username" Username_options (built req h)
   ++ Mongoose.validate_path "email" email_options (built req h))%list.
Proof.
  intros Hh. unfold Mongoose.validate.
  cbn [userSchema List.map List.concat fst snd].
  unfold Mongoose.validate_path at 3 4 5.
  rewrite built_password, built_image, built_isVerified.
  rewrite (password_path_accepts_digest _ Hh).
  change (Mongoose.path_errors image_options (Some (VStr (avatar_url req))))
    with (@nil string).
  change (Mongoose.path_errors isVerified_options (Some (VBool false)))
    with (@nil string).
  cbn [List.map app]. now rewrite app_nil_r.
Qed.

Lemma cast_email_filter (e : string) :
  Mongoose.cast_filter userSchema [("email", Some (VStr e))]
  = Ok [("email", Some (VStr (normalized e)))].
Proof. reflexivity. Qed.

Lemma user_by_email_stored (w : World) (e : string) (doc : gmap string value) :
  In doc (users w) ->
  doc !! "email" = Some (VStr (normalized e)) ->
  exists d, user_by_email w (Some e) = Ok (Some d).
Proof.
  intros Hin He. unfold user_by_email, find_user. cbn [str fmap option_fmap option_map].
  rewrite cast_email_filter.
  destruct (List.find _ (users w)) as [d|] eqn:Hf; [now exists d|].
  apply (List.find_none _ _ Hf) in Hin.
  cbn in Hin. rewrite He, bool_decide_eq_true_2 in Hin by reflexivity. discriminate.
Qed.

Lemma user_by_email_none (w : World) (e : string) (u : gmap string value) :
  user_by_email w (Some e) = Ok None ->
  In u (users w) -> u !! "email" <> Some (VStr (normalized e)).
Proof.
  intros Hn Hin He. destruct (user_by_email_stored w e u Hin He) as [d Hd].
  congruence.
Qed.

Lemma create_user_inv (req : Request) (h : string) (w w1 : World)
    (doc : gmap string value) :
  create_user (new_user_object req h) w = (Ok doc, w1) ->
  doc = stored (objectId_of (entropy w)) (clock w) (built req h) /\
  w1 = set_users (users w ++ [doc]) (set_entropy (S (entropy w)) w).
Proof.
  unfold create_user. rewrite build_new_user. cbv beta iota zeta.
  destruct (_ ++ _)%list; [|discriminate].
  destruct (Mongoose.duplicate_key _ _ _); [discriminate|].
  intros H. injection H as <- <-. split; reflexivity.
Qed.

Lemma stored_email (id : string) (now : Z) (d : gmap string value) :
  stored id now d !! "email" = d !! "email".
Proof. unfold stored. now rewrite !lookup_insert_ne by discriminate. Qed.

Lemma stored_password (id : string) (now : Z) (d : gmap string value) :
  stored id now d !! "password" = d !! "password".
Proof. unfold stored. now rewrite !lookup_insert_ne by discriminate. Qed.

Lemma register_duplicate (req : Request) (w : World) (d : gmap string value) :
  user_by_email w (body req !! "email") = Ok (Some d) ->
  run (register req) w =
  (conflict_response, w).
Proof.
  intros Hu. unfold register, User_findOne. mstep.
  unfold user_by_email in Hu. rewrite Hu. mstep. reflexivity.
Qed.

Ltac run_register req w :=
  unfold register, User_findOne, bcrypt_genSalt, bcrypt_hash,
    otpGenerator_generate, User_create, OTP_create;
  mstep; fold (user_by_email w (body req !! "email")).

(** What a 201 says about the run: the email was there and not yet
    registered, and [User.create] and [OTP.create] went through. *)
Lemma register_created_inv (req : Request) (w : World) :
  statusCode (fst (run (register req) w)) = 201 ->
  exists e h doc w1,
    body req !! "email" = Some e /\
    user_by_email w (Some e) = Ok None /\
    create_user (new_user_object req h) (set_entropy (S (S (entropy w))) w)
      = (Ok doc, w1) /\
    snd (run (register req) w) =
      set_outbox (outbox w1 ++ [mkMail (Some e) (Some (otp_of (S (entropy w))))
                                  (doc !! "Username") "registration"])
        (set_otps (otps w1 ++ [mkOtpDoc e (otp_of (S (entropy w))) (clock w1)]) w1).
Proof.
  run_register req w.
  destruct (user_by_email w (body req !! "email")) as [[d|]|err] eqn:Hu; mstep;
    try (cbn; discriminate).
  unfold hash_result.
  destruct (body req !! "password") as [p|]; mstep; try (cbn; discriminate).
  cbn [entropy set_entropy].
  change ([("Username", str (body req !! "Username")); _ ; _ ; _ ; _ ; _ ; _ ; _ ])
    with (new_user_object req (digest p (salt_of (entropy w)))).
  change (set_entropy (S (S (entropy w))) (set_entropy (S (entropy w)) w))
    with (set_entropy (S (S (entropy w))) w).
  destruct (create_user _ _) as [[doc|err] w1] eqn:Hc; mstep;
    try (cbn; discriminate).
  destruct (body req !! "email") as [e|] eqn:He; mstep; try (cbn; discriminate).
  intros _. exists e, (digest p (salt_of (entropy w))), doc, w1.
  rewrite prop_declared by reflexivity.
  repeat split; try assumption; reflexivity.
Qed.


Lemma existsb_bool_decide_false {A} (P : A -> Prop) `{forall x, Decision (P x)}
    (l : list A) :
  List.Forall (fun x => ~ P x) l -> existsb (fun x => bool_decide (P x)) l = false.
Proof.
  induction 1 as [|x l Hx _ IH]; [reflexivity|].
  cbn. now rewrite bool_decide_eq_false_2, IH.
Qed.

Lemma no_duplicate_key (req : Request) (h un e : string) (w : World) :
  body req !! "Username" = Some un ->
  body req !! "email" = Some e ->
  List.Forall (fun u => u !! "Username" <> Some (VStr (trim un))) (users w) ->
  user_by_email w (Some e) = Ok None ->
  Mongoose.duplicate_key userSchema (users w) (built req h) = None.
Proof.
  intros Hun He Hfree Hnone. unfold Mongoose.duplicate_key.
  cbn [userSchema List.find fst snd].
  rewrite built_Username, built_email, Hun, He.
  cbn [fmap option_fmap option_map].
  rewrite (existsb_bool_decide_false
             (fun u : gmap string value => u !! "Username" = Some (VStr (trim un))))
    by assumption.
  rewrite (existsb_bool_decide_false
             (fun u : gmap string value => u !! "email" = Some (VStr (normalized e)))).
  - reflexivity.
  - apply List.Forall_forall. intros u Hin. now apply user_by_email_none with (w := w).
Qed.

(** Registration goes through whenever the Username and the email pass their
    validators and are not taken; the password may be any string at all. *)
Lemma register_ok (req : Request) (w : World) (un e p : string) :
  (forall d s, String.length (digest d s) = 60%nat) ->
  body req !! "Username" = Some un ->
  body req !! "email" = Some e ->
  body req !! "password" = Some p ->
  Mongoose.path_errors Username_options (Some (VStr (trim un))) = [] ->
  Mongoose.path_errors email_options (Some (VStr (normalized e))) = [] ->
  user_by_email w (Some e) = Ok None ->
  List.Forall (fun u => u !! "Username" <> Some (VStr (trim un))) (users w) ->
  let doc := stored (objectId_of (S (S (entropy w)))) (clock w)
               (built req (digest p (salt_of (entropy w)))) in
  run (register req) w =
  (register_response doc,
   mkWorld (users w ++ [doc])
     (otps w ++ [mkOtpDoc e (otp_of (S (entropy w))) (clock w)])
     (timers w)
     (outbox w ++ [mkMail (Some e) (Some (otp_of (S (entropy w))))
                     (Some (VStr (trim un))) "registration"])
     (console w) (clock w) (S (S (S (entropy w))))).
Proof.
  intros H60 Hun He Hp Hvu Hve Hnone Hfree doc.
  pose proof Hnone as Hq. rewrite <- He in Hq.
  run_register req w. rewrite Hq. mstep.
  rewrite Hp. unfold hash_result. mstep. cbn [entropy set_entropy].
  change ([("Username", str (body req !! "Username")); _ ; _ ; _ ; _ ; _ ; _ ; _ ])
    with (new_user_object req (digest p (salt_of (entropy w)))).
  unfold create_user. rewrite build_new_user. cbv beta iota zeta.
  rewrite validate_built by apply H60.
  unfold Mongoose.validate_path. rewrite built_Username, built_email, Hun, He.
  cbn [fmap option_fmap option_map]. rewrite Hvu, Hve.
  cbn [List.map app users set_entropy].
  rewrite (no_duplicate_key req _ un e w) by assumption.
  mstep. cbn [entropy set_entropy users set_users clock otps set_otps outbox].
  rewrite !prop_declared by reflexivity.
  fold (stored (objectId_of (S (S (entropy w)))) (clock w)
          (built req (digest p (salt_of (entropy w))))).
  fold doc.
  replace (doc !! "Username") with (Some (VStr (trim un))).
  - reflexivity.
  - subst doc. unfold stored. rewrite !lookup_insert_ne by discriminate.
    now rewrite built_Username, Hun.
Qed.

End Register.

(** ** The deferred closure, [logout] and [refreshroute] *)

Section Others.
Context {E : Externals}.

(** Were the deferred closure ever to run, it would delete the User record
    and stop at the unbound identifier [Email]: the error is logged, the
    captured response is left as it was, and no cookie is cleared. *)
Lemma deferred_deletion_stops_at_Email (id : string)
    (userDetails : gmap string value) (stale : Response) (w : World) :
  Mongoose.ObjectId_isValid id = true ->
  run_job (DeletionJob id userDetails) stale w =
  (stale,
   set_console (console w ++ ["Error in the setTimeoutEmail is not defined"])
     (set_users
        (Mongoose.delete_first [("_id", Some (VObjectId (toLowerCase id)))] (users w))
        w)).
Proof.
  intros Hid. unfold run_job, deferred_deletion, User_deleteOne, Email_deleteOne.
  mstep. rewrite cast_id_filter, Hid. mstep. destruct stale. reflexivity.
Qed.

Lemma logout_clears_both_cookies (req : Request) (w : World) :
  run (logout req) w =
  (mkResponse 200
     [ mkCookie "AccessToken" "" clear_options;
       mkCookie "RefreshToken" "" clear_options ]
     (Some (JObj [("message", JStr "user logged out successfully")])), w).
Proof. reflexivity. Qed.

Lemma refreshroute_missing_cookie (req : Request) (w : World) :
  cookie_RefreshToken req = None ->
  run (refreshroute req) w = (error_response 401 "Refresh token missing", w).
Proof. intros H. unfold refreshroute. rewrite H. reflexivity. Qed.


End Others.

(** ** The claims *)

Lemma all_update_first (P : gmap string value -> Prop) (f : object)
    (g : gmap string value -> gmap string value) (us : list (gmap string value)) :
  (forall d, P d -> P (g d)) ->
  List.Forall P us -> List.Forall P (Mongoose.update_first f g us).
Proof.
  intros Hg. induction 1 as [|d us Hd Hus IH]; cbn [Mongoose.update_first].
  - constructor.
  - destruct (Mongoose.matches f d); constructor; auto.
Qed.

Section Claims.

Context {E : Externals}.

Lemma deleteUser_query_rejects (req : Request) (w : World) (e : Error) :
  user_by_id w (params_id req) = Err e ->
  run (deleteUser req) w = (error_response 500 (message e), w).
Proof.
  intros Hu. unfold deleteUser, User_findOne. mstep.
  unfold user_by_id in Hu. rewrite Hu. mstep. reflexivity.
Qed.

(** Whatever the request, [deleteUser] leaves the world as it was or, on a
    matching OTP, refreshes one [updatedAt] and records one mail. *)
Lemma deleteUser_world (req : Request) (w : World) :
  snd (run (deleteUser req) w) = w \/
  exists m,
    snd (run (deleteUser req) w) =
    set_outbox (outbox w ++ [m])
      (set_users
         (Mongoose.update_first
            [("_id", Some (VObjectId (toLowerCase (params_id req))))]
            (fun d => <["updatedAt" := VDate (clock w)]> d) (users w)) w).
Proof.
  destruct (user_by_id w (params_id req)) as [[u|]|e] eqn:Hu.
  - destruct (truthy (u !! "isVerified")) eqn:Hv.
    + destruct (find_otp (body req !! "email") (body req !! "otp") w) as [o|] eqn:Ho.
      * right. eexists. now rewrite (deleteUser_otp_match req w u o).
      * left. now rewrite (deleteUser_otp_mismatch req w u).
    + left. now rewrite (deleteUser_unverified req w u).
  - left. now rewrite deleteUser_not_found.
  - left. now rewrite (deleteUser_query_rejects req w e).
Qed.

(** C1: on a delete request for an existing, verified user with a matching
    (email, otp) record, [deleteUser] answers 200 but schedules no deferred
    action: the closure is guarded by [userDetails.markedForDeletion === true],
    read from the document fetched before the update and from a path the
    schema does not have, so the timers are the same after every request. *)
Theorem deleteUser_schedules_nothing (req : Request) (w : World) :
  timers (snd (run (deleteUser req) w)) = timers w /\
  forall u o,
    user_by_id w (params_id req) = Ok (Some u) ->
    truthy (u !! "isVerified") = true ->
    find_otp (body req !! "email") (body req !! "otp") w = Some o ->
    fst (run (deleteUser req) w)
    = mkResponse 200 [] (Some (JStr "User Deleted Successfully")).
Proof.
  split.
  - destruct (deleteUser_world req w) as [-> | [m ->]]; reflexivity.
  - intros u o Hu Hv Ho. now rewrite (deleteUser_otp_match req w u o).
Qed.

(** C6: the schema declares [isVerified] (a boolean, default false) but no
    [markedForDeletion] path: under strict mode the update
    [{ markedForDeletion: true }] is cast to nothing, the property reads as
    [undefined] on every document, and no request to [deleteUser] makes a
    stored record carry the field. *)
Theorem markedForDeletion_is_not_persisted (req : Request) (w : World) :
  Mongoose.path_options userSchema "isVerified" = Some isVerified_options /\
  Mongoose.has_path userSchema "markedForDeletion" = false /\
  Mongoose.cast_update userSchema [("markedForDeletion", Some (VBool true))] = [] /\
  (List.Forall (fun d : gmap string value => d !! "markedForDeletion" = None) (users w) ->
   List.Forall (fun d : gmap string value => d !! "markedForDeletion" = None)
     (users (snd (run (deleteUser req) w)))).
Proof.
  repeat split; try reflexivity.
  intros Hall. destruct (deleteUser_world req w) as [-> | [m ->]]; [assumption|].
  cbn [users set_outbox set_users]. apply all_update_first; [|assumption].
  intros d Hd. now rewrite lookup_insert_ne by discriminate.
Qed.

(** C2: the [password] path's [minlength: 8] is checked at persistence
    time against the value [register] stores, which is the bcrypt digest (60
    characters) and not the submitted password: a registration whose
    Username and email are acceptable and free is persisted with status 201
    for every password [p], however short. *)
Theorem register_accepts_any_password (req : Request) (w : World) (un e p : string) :
  (forall d s, String.length (digest d s) = 60%nat) ->
  body req !! "Username" = Some un ->
  body req !! "email" = Some e ->
  body req !! "password" = Some p ->
  Mongoose.path_errors Username_options (Some (VStr (trim un))) = [] ->
  Mongoose.path_errors email_options (Some (VStr (normalized e))) = [] ->
  user_by_email w (Some e) = Ok None ->
  List.Forall (fun u => u !! "Username" <> Some (VStr (trim un))) (users w) ->
  exists doc,
    statusCode (fst (run (register req) w)) = 201 /\
    users (snd (run (register req) w)) = (users w ++ [doc])%list /\
    doc !! "password" = Some (VStr (digest p (salt_of (entropy w)))).
Proof.
  intros H60 Hun He Hp Hvu Hve Hnone Hfree.
  eexists. rewrite (register_ok req w un e p) by assumption.
  cbn [fst snd statusCode register_response users].
  repeat split. now rewrite stored_password, built_password.
Qed.

(** C3: an unanticipated failure does not always give a 500 with a generic
    body.  In [deleteUser] a malformed id makes the first query reject, and
    the catch-all answers 500 with that error's own message as the body; in
    [login] a rejection of [bcrypt.compare] (here: no password in the body)
    matches none of the known messages, and the generic body goes out with
    the status never set, that is 200. *)
Theorem unanticipated_failures (req : Request) (w : World) :
  (Mongoose.ObjectId_isValid (params_id req) = false ->
   fst (run (deleteUser req) w)
   = error_response 500 (message (Mongoose.CastError (params_id req) "_id"))) /\
  (forall u,
     user_by_email w (body req !! "email") = Ok (Some u) ->
     body req !! "password" = None ->
     fst (run (login req) w) = error_response 200 generic_message).
Proof.
  split.
  - intros Hid. now rewrite deleteUser_cast_error.
  - intros u Hu Hp.
    rewrite (login_compare_rejects req w u
               (new_Error "data and hash arguments required") Hu);
      [reflexivity | now rewrite Hp | discriminate | discriminate].
Qed.

(** C4: [userInfo] checks, in this order, that the id is well-formed (else
    400 "Invalid user ID format"), that the token's audience claim equals
    the path id (else 401 "Invalid access token"), that the user exists
    (else 404) and that the user is verified (else 401); when all four hold
    it answers 200 with the stored document itself, hashed password
    included. *)
Theorem userInfo_checks_in_order (req : Request) (w : World) :
  (Mongoose.ObjectId_isValid (params_id req) = false ->
   fst (run (userInfo req) w) = error_response 400 "Invalid user ID format") /\
  (Mongoose.ObjectId_isValid (params_id req) = true ->
   payload_aud req <> Some (params_id req) ->
   fst (run (userInfo req) w) = error_response 401 "Invalid access token") /\
  (Mongoose.ObjectId_isValid (params_id req) = true ->
   payload_aud req = Some (params_id req) ->
   user_by_id w (params_id req) = Ok None ->
   fst (run (userInfo req) w) = error_response 404 "User not found") /\
  (forall u,
     Mongoose.ObjectId_isValid (params_id req) = true ->
     payload_aud req = Some (params_id req) ->
     user_by_id w (params_id req) = Ok (Some u) ->
     truthy (u !! "isVerified") = false ->
     fst (run (userInfo req) w) = error_response 401 "User is not verified") /\
  (forall u,
     Mongoose.ObjectId_isValid (params_id req) = true ->
     payload_aud req = Some (params_id req) ->
     user_by_id w (params_id req) = Ok (Some u) ->
     truthy (u !! "isVerified") = true ->
     run (userInfo req) w = (mkResponse 200 [] (Some (JObj [("data", JDoc u)])), w)
     /\ In u (users w)
     /\ forall h, u !! "password" = Some h ->
          exists d, sent (fst (run (userInfo req) w)) = Some (JObj [("data", JDoc d)])
                    /\ d !! "password" = Some h).
Proof.
  repeat apply conj.
  - intros Hid. now rewrite userInfo_invalid_id.
  - intros Hid Haud. now rewrite userInfo_bad_audience.
  - intros _ Haud Hu. now rewrite userInfo_not_found.
  - intros u _ Haud Hu Hv. now rewrite (userInfo_unverified req w u).
  - intros u _ Haud Hu Hv. rewrite (userInfo_ok req w u) by assumption.
    repeat apply conj.
    + reflexivity.
    + now apply (user_by_id_stored w (params_id req)).
    + intros h Hh. exists u. now split.
Qed.

(** C5: on a delete request for an existing, verified user for which no OTP
    record matches the submitted (email, otp), [deleteUser] answers 400
    "OTP doesn't match" and the world is unchanged: the users, the OTP
    store and the timers are what they were. *)
Theorem deleteUser_wrong_otp_changes_nothing (req : Request) (w : World)
    (u : gmap string value) :
  user_by_id w (params_id req) = Ok (Some u) ->
  truthy (u !! "isVerified") = true ->
  find_otp (body req !! "email") (body req !! "otp") w = None ->
  fst (run (deleteUser req) w) = mkResponse 400 [] (Some (JStr "OTP doesn't match")) /\
  snd (run (deleteUser req) w) = w /\
  users (snd (run (deleteUser req) w)) = users w /\
  otps (snd (run (deleteUser req) w)) = otps w /\
  timers (snd (run (deleteUser req) w)) = timers w.
Proof.
  intros Hu Hv Ho. rewrite (deleteUser_otp_mismatch req w u) by assumption.
  repeat split.
Qed.

(** X18: when [User.findById] and [bcrypt.compare] resolve, [updatePassword]
    checks in this order that the user exists (else 404 "User not found"),
    that the user is verified (else 401 "User is not verified"), that
    [newPassword] equals [confirmNewPassword] (else 400, for every unequal
    pair), and that the old password matches the stored hash (else 401
    "Invalid old password"); with the new password a string, the stored
    password becomes its digest under a salt drawn for this call, and the
    answer is 200. *)
Theorem updatePassword_checks_in_order (req : Request) (w : World) :
  (user_by_id w (params_id req) = Ok None ->
   fst (run (updatePassword req) w) = error_response 404 "User not found") /\
  (forall u,
     user_by_id w (params_id req) = Ok (Some u) ->
     truthy (u !! "isVerified") = false ->
     fst (run (updatePassword req) w) = error_response 401 "User is not verified") /\
  (forall u,
     user_by_id w (params_id req) = Ok (Some u) ->
     truthy (u !! "isVerified") = true ->
     body req !! "newPassword" <> body req !! "confirmNewPassword" ->
     fst (run (updatePassword req) w)
     = error_response 400 "New passwords do not match") /\
  (forall u,
     user_by_id w (params_id req) = Ok (Some u) ->
     truthy (u !! "isVerified") = true ->
     body req !! "newPassword" = body req !! "confirmNewPassword" ->
     compare_result (body req !! "oldPassword") (u !! "password") = Ok false ->
     fst (run (updatePassword req) w) = error_response 401 "Invalid old password") /\
  (forall u np,
     user_by_id w (params_id req) = Ok (Some u) ->
     truthy (u !! "isVerified") = true ->
     body req !! "newPassword" = Some np ->
     body req !! "confirmNewPassword" = Some np ->
     compare_result (body req !! "oldPassword") (u !! "password") = Ok true ->
     fst (run (updatePassword req) w)
     = mkResponse 200 [] (Some (JObj [("message", JStr "Password updated successfully")]))
     /\ user_by_id (snd (run (updatePassword req) w)) (params_id req)
        = Ok (Some (with_password (digest np (salt_of (entropy w))) (clock w) u))
     /\ with_password (digest np (salt_of (entropy w))) (clock w) u !! "password"
        = Some (VStr (digest np (salt_of (entropy w))))
     /\ entropy (snd (run (updatePassword req) w)) = S (entropy w)).
Proof.
  repeat apply conj.
  - intros Hu. now rewrite updatePassword_not_found.
  - intros u Hu Hv. now rewrite (updatePassword_unverified req w u).
  - intros u Hu Hv Hne. now rewrite (updatePassword_mismatch req w u).
  - intros u Hu Hv Heq Hc. now rewrite (updatePassword_wrong_old req w u).
  - intros u np Hu Hv Hn Hcf Hc.
    rewrite (updatePassword_ok req w u np) by assumption. cbn [fst snd].
    repeat apply conj.
    + reflexivity.
    + now apply user_after_password_update.
    + unfold with_password. rewrite lookup_insert_ne by discriminate.
      apply lookup_insert_eq.
    + reflexivity.
Qed.

(** C8 (amended): [updateImage] answers 400 for a malformed id, 404 when the
    user does not exist, 401 for every existing but unverified user (never
    200, file or no file), and 400 "No image file provided" when the user
    exists and is verified and the file is absent: the file is looked at
    last.  On success the avatar becomes the base64 encoding of the file's
    bytes and the answer is 200. *)
Theorem updateImage_checks_in_order (req : Request) (w : World) :
  (Mongoose.ObjectId_isValid (params_id req) = false ->
   fst (run (updateImage req) w) = error_response 400 "Invalid user ID format") /\
  (user_by_id w (params_id req) = Ok None ->
   fst (run (updateImage req) w) = error_response 404 "User not found") /\
  (forall u,
     user_by_id w (params_id req) = Ok (Some u) ->
     truthy (u !! "isVerified") = false ->
     fst (run (updateImage req) w) = error_response 401 "User is not verified"
     /\ statusCode (fst (run (updateImage req) w)) <> 200) /\
  (forall u,
     user_by_id w (params_id req) = Ok (Some u) ->
     truthy (u !! "isVerified") = true ->
     file req = None ->
     fst (run (updateImage req) w) = error_response 400 "No image file provided") /\
  (forall u buffer,
     user_by_id w (params_id req) = Ok (Some u) ->
     truthy (u !! "isVerified") = true ->
     file req = Some buffer ->
     fst (run (updateImage req) w)
     = mkResponse 200 [] (Some (JObj [("message", JStr "Image updated successfully")]))
     /\ user_by_id (snd (run (updateImage req) w)) (params_id req)
        = Ok (Some (with_image (Base64.encode buffer) (clock w) u))
     /\ with_image (Base64.encode buffer) (clock w) u !! "image"
        = Some (VStr (Base64.encode buffer))).
Proof.
  repeat apply conj.
  - intros Hid. now rewrite updateImage_invalid_id.
  - intros Hu. now rewrite updateImage_not_found.
  - intros u Hu Hv. rewrite (updateImage_unverified req w u) by assumption.
    split; [reflexivity | discriminate].
  - intros u Hu Hv Hf. now rewrite (updateImage_no_file req w u).
  - intros u buffer Hu Hv Hf.
    rewrite (updateImage_ok req w u buffer) by assumption. cbn [fst snd].
    repeat apply conj.
    + reflexivity.
    + now apply user_after_image_update.
    + unfold with_image. rewrite lookup_insert_ne by discriminate.
      apply lookup_insert_eq.
Qed.

(** C9: when a registration succeeds with 201, a second registration that
    carries the same email answers 409 "User already exists. Try signing up
    with a different email." and leaves the world as the first one left it:
    no new User record and no new OTP record. *)
Theorem register_twice_conflicts (req1 req2 : Request) (w : World) :
  body req1 !! "email" = body req2 !! "email" ->
  statusCode (fst (run (register req1) w)) = 201 ->
  fst (run (register req2) (snd (run (register req1) w))) = conflict_response /\
  String.prefix "User already exists"
    "User already exists. Try signing up with a different email." = true /\
  users (snd (run (register req2) (snd (run (register req1) w))))
  = users (snd (run (register req1) w)) /\
  otps (snd (run (register req2) (snd (run (register req1) w))))
  = otps (snd (run (register req1) w)).
Proof.
  intros Hsame H201.
  destruct (register_created_inv req1 w H201) as (e & h & doc & w1 & He & _ & Hc & Hw).
  destruct (create_user_inv _ _ _ _ _ Hc) as [Hdoc Hw1].
  assert (Hin : In doc (users (snd (run (register req1) w)))).
  { rewrite Hw, Hw1. cbn [users set_outbox set_otps set_users].
    apply in_or_app. right. now left. }
  assert (Hmail : doc !! "email" = Some (VStr (normalized e))).
  { rewrite Hdoc, stored_email, built_email, He. reflexivity. }
  destruct (user_by_email_stored _ e doc Hin Hmail) as [d Hd].
  rewrite <- He, Hsame in Hd.
  rewrite (register_duplicate req2 _ d Hd).
  repeat split.
Qed.

(** C10: [login] has no verification gate: for an existing user whose stored
    hash matches the submitted password it answers 200 and issues both
    tokens, as cookies and in the body, whatever [isVerified] is; for the
    same user while unverified, [updatePassword], [updateImage], [userInfo]
    and [deleteUser] all answer 401. *)
Theorem login_has_no_verification_gate (req : Request) (w : World)
    (u : gmap string value) :
  user_by_email w (body req !! "email") = Ok (Some u) ->
  compare_result (body req !! "password") (u !! "password") = Ok true ->
  run (login req) w = (login_response u, w) /\
  statusCode (login_response u) = 200 /\
  List.map cookie_name (cookies (login_response u)) = ["AccessToken"; "RefreshToken"] /\
  (forall req',
     user_by_id w (params_id req') = Ok (Some u) ->
     truthy (u !! "isVerified") = false ->
     statusCode (fst (run (updatePassword req') w)) = 401 /\
     statusCode (fst (run (updateImage req') w)) = 401 /\
     (payload_aud req' = Some (params_id req') ->
      statusCode (fst (run (userInfo req') w)) = 401) /\
     statusCode (fst (run (deleteUser req') w)) = 401).
Proof.
  intros Hu Hc. repeat apply conj; try reflexivity.
  - now apply login_ok.
  - intros req' Hid Hv. repeat apply conj.
    + now rewrite (updatePassword_unverified req' w u).
    + now rewrite (updateImage_unverified req' w u).
    + intros Haud. now rewrite (userInfo_unverified req' w u).
    + now rewrite (deleteUser_unverified req' w u).
Qed.

End Claims.
(** C8, as stated, fails: a missing file does not always give 400. *)
Lemma updateImage_missing_file_is_not_always_400 :
  ~ (forall (E0 : Externals) (req : Request) (w : World),
       file req = None ->
       statusCode (fst (run (updateImage (E := E0) req) w)) = 400).
Proof.
  intros H.
  specialize (H Fixture.toy Fixture.upload_nothing_for_nobody Fixture.empty_world
                eq_refl).
  vm_compute in H. discriminate H.
Qed.


(** ** The claims at concrete inputs *)

Module Witnesses.

Import Fixture.

Ltac eval_eq := vm_compute; reflexivity.

Lemma pad_to_length (n : nat) (c : ascii) (s : string) :
  String.length (pad_to n c s) = n.
Proof.
  revert s. induction n as [|n IH]; intros s; [reflexivity|].
  destruct s; cbn; now rewrite IH.
Qed.

Lemma toy_digest_length (d s : string) :
  String.length (digest (Externals := toy) d s) = 60%nat.
Proof. apply pad_to_length. Qed.

Lemma alice_is_stored :
  user_by_id (E := toy) verified alice_id = Ok (Some (alice_doc verified)).
Proof. eval_eq. Qed.

Lemma alice_is_verified : truthy (alice_doc verified !! "isVerified") = true.
Proof. eval_eq. Qed.

Lemma alice_is_registered :
  user_by_id (E := toy) registered alice_id = Ok (Some (alice_doc registered)).
Proof. eval_eq. Qed.

Lemma alice_is_unverified : truthy (alice_doc registered !! "isVerified") = false.
Proof. eval_eq. Qed.

(** Alice, verified, submits the OTP she was sent: 200, and no timer. *)
Lemma deleteUser_schedules_nothing_witness :
  timers (snd (run (deleteUser (E := toy) delete_with_otp) verified)) = timers verified /\
  timers verified = [] /\
  fst (run (deleteUser (E := toy) delete_with_otp) verified)
  = mkResponse 200 [] (Some (JStr "User Deleted Successfully")).
Proof.
  assert (Ho : find_otp (body delete_with_otp !! "email") (body delete_with_otp !! "otp")
                 verified = Some (mkOtpDoc "Alice@X.com" alice_otp 1700000000000))
    by eval_eq.
  pose proof (deleteUser_schedules_nothing (E := toy) delete_with_otp verified)
    as [Ht Hr].
  split; [exact Ht|]. split; [eval_eq|].
  exact (Hr _ _ alice_is_stored alice_is_verified Ho).
Defined.

(** Bob registers with the three-character password [abc]. *)
Lemma register_accepts_any_password_witness :
  (String.length "abc" < 8)%nat /\
  exists doc,
    statusCode (fst (run (register (E := toy) (bob_with_password "abc")) empty_world)) = 201 /\
    users (snd (run (register (E := toy) (bob_with_password "abc")) empty_world)) = [doc] /\
    doc !! "password" = Some (VStr (toy_digest "abc" (toy_salt 0))).
Proof.
  split; [vm_compute; lia|].
  apply (register_accepts_any_password (E := toy) (bob_with_password "abc")
           empty_world "bob" "bob@x.com" "abc").
  - apply toy_digest_length.
  - eval_eq.
  - eval_eq.
  - eval_eq.
  - eval_eq.
  - eval_eq.
  - eval_eq.
  - constructor.
Defined.

(** A delete request with the id [abc], and a login without a password. *)
Lemma unanticipated_failures_witness :
  fst (run (deleteUser (E := toy) delete_malformed) verified)
  = error_response 500 (message (Mongoose.CastError "abc" "_id")) /\
  fst (run (login (E := toy) login_without_password) registered)
  = error_response 200 generic_message.
Proof.
  assert (Hid : Mongoose.ObjectId_isValid (params_id delete_malformed) = false)
    by eval_eq.
  assert (Hu : user_by_email (E := toy) registered (body login_without_password !! "email")
               = Ok (Some (alice_doc registered))) by eval_eq.
  assert (Hp : body login_without_password !! "password" = None) by eval_eq.
  split.
  - exact (proj1 (unanticipated_failures (E := toy) delete_malformed verified) Hid).
  - exact (proj2 (unanticipated_failures (E := toy) login_without_password registered)
             _ Hu Hp).
Defined.

(** Alice, verified, reads her own record: the digest comes back. *)
Lemma userInfo_checks_in_order_witness :
  run (userInfo (E := toy) info_request) verified
  = (mkResponse 200 [] (Some (JObj [("data", JDoc (alice_doc verified))])), verified) /\
  alice_doc verified !! "password"
  = Some (VStr (toy_digest "longenough1" (toy_salt 0))).
Proof.
  assert (Hid : Mongoose.ObjectId_isValid (params_id info_request) = true) by eval_eq.
  pose proof (userInfo_checks_in_order (E := toy) info_request verified)
    as (_ & _ & _ & _ & H).
  destruct (H _ Hid eq_refl alice_is_stored alice_is_verified) as (Hrun & _ & _).
  split; [exact Hrun | eval_eq].
Defined.

Lemma deleteUser_wrong_otp_changes_nothing_witness :
  fst (run (deleteUser (E := toy) delete_wrong_otp) verified)
  = mkResponse 400 [] (Some (JStr "OTP doesn't match")) /\
  snd (run (deleteUser (E := toy) delete_wrong_otp) verified) = verified.
Proof.
  assert (Ho : find_otp (body delete_wrong_otp !! "email") (body delete_wrong_otp !! "otp")
                 verified = None) by eval_eq.
  destruct (deleteUser_wrong_otp_changes_nothing (E := toy) delete_wrong_otp verified
              _ alice_is_stored alice_is_verified Ho) as (Hr & Hw & _).
  split; assumption.
Defined.

(** After the delete request that matched, Alice's record still has no
    [markedForDeletion]. *)
Lemma markedForDeletion_is_not_persisted_witness :
  List.Forall (fun d : gmap string value => d !! "markedForDeletion" = None)
    (users (snd (run (deleteUser (E := toy) delete_with_otp) verified))).
Proof.
  assert (Hbefore : List.Forall
            (fun d : gmap string value => d !! "markedForDeletion" = None)
            (users verified)).
  { change (users verified) with [alice_doc verified]. repeat constructor. }
  exact (proj2 (proj2 (proj2
           (markedForDeletion_is_not_persisted (E := toy) delete_with_otp verified)))
           Hbefore).
Defined.

Lemma updatePassword_checks_in_order_witness :
  fst (run (updatePassword (E := toy) password_change) verified)
  = mkResponse 200 [] (Some (JObj [("message", JStr "Password updated successfully")])) /\
  exists d,
    user_by_id (E := toy) (snd (run (updatePassword (E := toy) password_change) verified))
      alice_id = Ok (Some d) /\
    d !! "password" = Some (VStr (toy_digest "evenlonger22" (toy_salt 3))).
Proof.
  assert (Hc : compare_result (E := toy) (body password_change !! "oldPassword")
                 (alice_doc verified !! "password") = Ok true) by eval_eq.
  assert (Hn : body password_change !! "newPassword" = Some "evenlonger22") by eval_eq.
  assert (Hcf : body password_change !! "confirmNewPassword" = Some "evenlonger22")
    by eval_eq.
  pose proof (updatePassword_checks_in_order (E := toy) password_change verified)
    as (_ & _ & _ & _ & H).
  destruct (H _ _ alice_is_stored alice_is_verified Hn Hcf Hc) as (Hr & Hu & Hp & _).
  split; [exact Hr|]. eexists. split; [exact Hu | exact Hp].
Defined.

Lemma updateImage_checks_in_order_witness :
  fst (run (updateImage (E := toy) image_upload) verified)
  = mkResponse 200 [] (Some (JObj [("message", JStr "Image updated successfully")])) /\
  exists d,
    user_by_id (E := toy) (snd (run (updateImage (E := toy) image_upload) verified))
      alice_id = Ok (Some d) /\
    d !! "image" = Some (VStr "TWFu").
Proof.
  pose proof (updateImage_checks_in_order (E := toy) image_upload verified)
    as (_ & _ & _ & _ & H).
  destruct (H _ _ alice_is_stored alice_is_verified eq_refl) as (Hr & Hu & Hp).
  split; [exact Hr|]. eexists. split; [exact Hu | exact Hp].
Defined.

(** Alice registers twice. *)
Lemma register_twice_conflicts_witness :
  statusCode (fst (run (register (E := toy) alice) empty_world)) = 201 /\
  fst (run (register (E := toy) alice) registered) = conflict_response /\
  users (snd (run (register (E := toy) alice) registered)) = users registered /\
  otps (snd (run (register (E := toy) alice) registered)) = otps registered.
Proof.
  assert (H201 : statusCode (fst (run (register (E := toy) alice) empty_world)) = 201)
    by eval_eq.
  destruct (register_twice_conflicts (E := toy) alice alice empty_world eq_refl H201)
    as (Hr & _ & Hu & Ho).
  repeat split; assumption.
Defined.

(** Alice, not yet verified, logs in; the four gated handlers refuse her. *)
Lemma login_has_no_verification_gate_witness :
  alice_doc registered !! "isVerified" = Some (VBool false) /\
  run (login (E := toy) alice) registered
  = (login_response (E := toy) (alice_doc registered), registered) /\
  statusCode (fst (run (userInfo (E := toy) info_request) registered)) = 401 /\
  statusCode (fst (run (deleteUser (E := toy) delete_with_otp) registered)) = 401.
Proof.
  assert (Hu : user_by_email (E := toy) registered (body alice !! "email")
               = Ok (Some (alice_doc registered))) by eval_eq.
  assert (Hc : compare_result (E := toy) (body alice !! "password")
                 (alice_doc registered !! "password") = Ok true) by eval_eq.
  split; [eval_eq|].
  destruct (login_has_no_verification_gate (E := toy) alice registered _ Hu Hc)
    as (Hl & _ & _ & Hg).
  split; [exact Hl|].
  split.
  - exact (proj1 (proj2 (proj2
             (Hg info_request alice_is_registered alice_is_unverified))) eq_refl).
  - exact (proj2 (proj2 (proj2
             (Hg delete_with_otp alice_is_registered alice_is_unverified)))).
Defined.

End Witnesses.

(** ** More of the handlers: what they never do, and how they compose *)

(** The fields of the world a handler may write for the store's clients to
    see: everything but the console and the entropy counter. *)
Definition same_store (w w' : World) : Prop :=
  users w' = users w /\ otps w' = otps w /\ timers w' = timers w
  /\ outbox w' = outbox w /\ clock w' = clock w.

Lemma same_store_refl (w : World) : same_store w w.
Proof. repeat split. Qed.

Lemma find_app_none {A} (p : A -> bool) (l1 l2 : list A) :
  List.find p l1 = None -> List.find p (l1 ++ l2) = List.find p l2.
Proof.
  induction l1 as [|x l1 IH]; cbn; [reflexivity|].
  destruct (p x); [discriminate | assumption].
Qed.

Lemma length_update_first (f : object)
    (g : gmap string value -> gmap string value) (us : list (gmap string value)) :
  length (Mongoose.update_first f g us) = length us.
Proof.
  induction us as [|d us IH]; cbn; [reflexivity|].
  destruct (Mongoose.matches f d); cbn; congruence.
Qed.

(** Two filters that single out the same document: rewriting the first
    match of one is seen through the other. *)
Lemma find_other_after_update (f q : object)
    (g : gmap string value -> gmap string value)
    (us : list (gmap string value)) (u : gmap string value) :
  (forall d, Mongoose.matches q (g d) = Mongoose.matches q d) ->
  List.find (Mongoose.matches f) us = Some u ->
  List.find (Mongoose.matches q) us = Some u ->
  List.find (Mongoose.matches q) (Mongoose.update_first f g us) = Some (g u).
Proof.
  intros Hg. induction us as [|d us IH]; cbn [List.find Mongoose.update_first];
    [discriminate|].
  destruct (Mongoose.matches f d) eqn:Hf; intros H1 H2.
  - injection H1 as ->. cbn [List.find]. rewrite Hg.
    destruct (Mongoose.matches q u) eqn:Hq; [reflexivity|].
    apply List.find_some in H2 as [_ H2]. congruence.
  - cbn [List.find]. destruct (Mongoose.matches q d) eqn:Hq.
    + injection H2 as ->. apply List.find_some in H1 as [_ H1]. congruence.
    + now apply IH.
Qed.

Section Coverage.

Context {E : Externals}.

(** *** The shared [catch] block *)

Definition branch_status (branches : list (string * Z)) (err : Error) (dflt : Z) : Z :=
  match List.find (fun b => String.eqb (message err) (fst b)) branches with
  | Some (_, code) => code
  | None => dflt
  end.

Definition branch_message (branches : list (string * Z)) (err : Error) : string :=
  match List.find (fun b => String.eqb (message err) (fst b)) branches with
  | Some (msg, _) => msg
  | None => generic_message
  end.

Lemma respond_by_message_run (branches : list (string * Z)) (err : Error) (w : World) :
  respond_by_message branches err (mkResponse 200 [] None, w) =
  (Val tt,
   (error_response (branch_status branches err 200) (branch_message branches err),
    logged err w)).
Proof.
  unfold respond_by_message, branch_status, branch_message. mstep.
  destruct (List.find _ branches) as [[msg code]|]; mstep; reflexivity.
Qed.

Lemma branch_status_in (branches : list (string * Z)) (err : Error) (dflt : Z) :
  branch_status branches err dflt = dflt
  \/ In (branch_status branches err dflt) (List.map snd branches).
Proof.
  unfold branch_status.
  destruct (List.find _ branches) as [[msg code]|] eqn:Hf; [right|now left].
  apply List.find_some in Hf as [Hin _].
  now apply (in_map snd) in Hin.
Qed.

(** *** [login] *)

Definition login_branches : list (string * Z) :=
  [ ("User not found", 404); ("Invalid credentials", 401) ].

(** Every run of [login], by what the lookup and the comparison resolve to. *)
Lemma login_cases (req : Request) (w : World) :
  run (login req) w =
  match user_by_email w (body req !! "email") with
  | Err e =>
      (error_response (branch_status login_branches e 200)
         (branch_message login_branches e), logged e w)
  | Ok None =>
      (error_response 404 "User not found", logged (new_Error "User not found") w)
  | Ok (Some u) =>
      match compare_result (body req !! "password") (u !! "password") with
      | Err e =>
          (error_response (branch_status login_branches e 200)
             (branch_message login_branches e), logged e w)
      | Ok false =>
          (error_response 401 "Invalid credentials",
           logged (new_Error "Invalid credentials") w)
      | Ok true => (login_response u, w)
      end
  end.
Proof.
  destruct (user_by_email w (body req !! "email")) as [[u|]|e] eqn:Hu.
  - destruct (compare_result (body req !! "password") (u !! "password"))
      as [[|]|e] eqn:Hc.
    + now apply login_ok.
    + now apply (login_wrong_password req w u).
    + unfold login, bcrypt_compare, User_findOne. mstep.
      unfold user_by_email in Hu. rewrite Hu. mstep.
      rewrite prop_declared, Hc by reflexivity. mstep.
      fold login_branches.
      now rewrite (respond_by_message_run login_branches e w).
  - now apply login_not_found.
  - unfold login, User_findOne. mstep.
    unfold user_by_email in Hu. rewrite Hu. mstep.
    fold login_branches.
    now rewrite (respond_by_message_run login_branches e w).
Qed.

(** X1: [login] never answers 500: whatever fails, the status is 200, 401 or
    404, and the store is as it was (only the console may grow). *)
Theorem login_never_answers_500 (req : Request) (w : World) :
  In (statusCode (fst (run (login req) w))) [200; 401; 404] /\
  same_store w (snd (run (login req) w)).
Proof.
  rewrite login_cases.
  destruct (user_by_email w (body req !! "email")) as [[u|]|e].
  - destruct (compare_result _ _) as [[|]|e]; cbn [fst snd].
    + split; [cbn; auto | apply same_store_refl].
    + split; [cbn; auto | repeat split].
    + split; [|repeat split]. cbn [error_response statusCode].
      destruct (branch_status_in login_branches e 200) as [-> | H]; cbn in *; intuition.
  - split; [cbn; auto | repeat split].
  - split; [|repeat split]. cbn [fst error_response statusCode].
    destruct (branch_status_in login_branches e 200) as [-> | H]; cbn in *; intuition.
Qed.

(** X2: a failed [login] issues nothing: an unknown email gets 404, a wrong
    password 401, and the response carries a cookie only when the user was
    found and the password matched. *)
Theorem login_failure_issues_no_token (req : Request) (w : World) :
  (user_by_email w (body req !! "email") = Ok None ->
   fst (run (login req) w) = error_response 404 "User not found") /\
  (forall u,
     user_by_email w (body req !! "email") = Ok (Some u) ->
     compare_result (body req !! "password") (u !! "password") = Ok false ->
     fst (run (login req) w) = error_response 401 "Invalid credentials") /\
  (cookies (fst (run (login req) w)) = []
   \/ exists u, user_by_email w (body req !! "email") = Ok (Some u)
               /\ compare_result (body req !! "password") (u !! "password") = Ok true).
Proof.
  repeat apply conj.
  - intros Hu. now rewrite login_not_found.
  - intros u Hu Hc. now rewrite (login_wrong_password req w u).
  - rewrite login_cases.
    destruct (user_by_email w (body req !! "email")) as [[u|]|e]; try (now left).
    destruct (compare_result _ _) as [[|]|e] eqn:Hc; try (now left).
    right. now exists u.
Qed.

(** *** [register] *)

Definition internal_error_response : Response :=
  mkResponse 500 [] (Some (JObj [("message", JStr "Internal server error")])).

(** The world after [console.error("Error during registration:", error)]. *)
Definition registration_logged (e : Error) (w : World) : World :=
  set_console
    (console w ++ ["Error during registration: " +:+ name e +:+ ": " +:+ message e]) w.

(** The world a successful [register] leaves: the record, its OTP and the
    mail. *)
Definition after_registration (w : World) (doc : gmap string value) (e : string)
    : World :=
  mkWorld (users w ++ [doc])
    (otps w ++ [mkOtpDoc e (otp_of (S (entropy w))) (clock w)])
    (timers w)
    (outbox w ++ [mkMail (Some e) (Some (otp_of (S (entropy w))))
                    (doc !! "Username") "registration"])
    (console w) (clock w) (S (S (S (entropy w)))).


(** Without an email the [required] validator fails and nothing is created. *)
Lemma create_user_needs_email (req : Request) (h : string) (w w1 : World)
    (doc : gmap string value) :
  create_user (new_user_object req h) w = (Ok doc, w1) ->
  exists e, body req !! "email" = Some e.
Proof.
  destruct (body req !! "email") as [e|] eqn:He; [now exists e|].
  unfold create_user. rewrite build_new_user. cbv beta iota zeta.
  unfold Mongoose.validate. cbn [userSchema List.map List.concat fst snd].
  unfold Mongoose.validate_path at 2. rewrite built_email, He.
  destruct (Mongoose.validate_path "Username" Username_options _);
    cbn; discriminate.
Qed.

Lemma register_cases (req : Request) (w : World) :
  run (register req) w =
  match user_by_email w (body req !! "email") with
  | Err e => (internal_error_response, registration_logged e w)
  | Ok (Some _) => (conflict_response, w)
  | Ok None =>
      match body req !! "password" with
      | None =>
          (internal_error_response,
           registration_logged (new_Error "data and salt arguments required")
             (set_entropy (S (entropy w)) w))
      | Some p =>
          match create_user (new_user_object req (digest p (salt_of (entropy w))))
                  (set_entropy (S (S (entropy w))) w) with
          | (Err e, w1) => (internal_error_response, registration_logged e w1)
          | (Ok doc, _) =>
              match body req !! "email" with
              | Some e => (register_response doc, after_registration w doc e)
              | None => (internal_error_response, w)
              end
          end
      end
  end.
Proof.
  destruct (user_by_email w (body req !! "email")) as [[d|]|e] eqn:Hu.
  - now apply (register_duplicate req w d).
  - unfold register, User_findOne, bcrypt_genSalt, bcrypt_hash,
      otpGenerator_generate, User_create, OTP_create.
    mstep. unfold user_by_email in Hu. rewrite Hu. mstep.
    unfold hash_result. destruct (body req !! "password") as [p|]; mstep;
      [|reflexivity].
    cbn [entropy set_entropy].
    change ([("Username", str (body req !! "Username")); _ ; _ ; _ ; _ ; _ ; _ ; _ ])
      with (new_user_object req (digest p (salt_of (entropy w)))).
    change (set_entropy (S (S (entropy w))) (set_entropy (S (entropy w)) w))
      with (set_entropy (S (S (entropy w))) w).
    destruct (create_user _ _) as [[doc|err] w1] eqn:Hc; mstep; [|reflexivity].
    destruct (create_user_needs_email _ _ _ _ _ Hc) as [e He].
    destruct (create_user_inv _ _ _ _ _ Hc) as [Hdoc ->].
    rewrite He. mstep. rewrite !prop_declared by reflexivity. reflexivity.
  - unfold register, User_findOne. mstep.
    unfold user_by_email in Hu. rewrite Hu. mstep. reflexivity.
Qed.

Lemma built_unknown_path (req : Request) (h path : string) :
  Mongoose.path_options userSchema path = None ->
  built req h !! path = None.
Proof.
  intros Hp. unfold built, set_opt.
  assert (Hne : forall k, Mongoose.path_options userSchema k <> None -> k <> path)
    by (intros k Hk ->; contradiction).
  destruct (body req !! "Username"), (body req !! "email");
    cbn [fmap option_fmap option_map];
    rewrite ?lookup_insert_ne by (apply Hne; discriminate);
    apply lookup_empty.
Qed.

Lemma stored_other (id : string) (now : Z) (d : gmap string value) (path : string) :
  ~ In path Mongoose.builtin_paths -> stored id now d !! path = d !! path.
Proof.
  intros Hn. unfold stored.
  rewrite !lookup_insert_ne; [reflexivity| | | |];
    intros <-; apply Hn; cbn; auto.
Qed.

(** A 201, read backwards: the email and the password were there and the
    run went all the way through. *)
Lemma register_created_full (req : Request) (w : World) :
  statusCode (fst (run (register req) w)) = 201 ->
  exists e p,
    body req !! "email" = Some e /\ body req !! "password" = Some p /\
    user_by_email w (Some e) = Ok None /\
    run (register req) w =
    (let doc := stored (objectId_of (S (S (entropy w)))) (clock w)
                  (built req (digest p (salt_of (entropy w)))) in
     (register_response doc, after_registration w doc e)).
Proof.
  rewrite register_cases.
  destruct (user_by_email w (body req !! "email")) as [[d|]|e] eqn:Hu;
    try (cbn; discriminate).
  destruct (body req !! "password") as [p|]; try (cbn; discriminate).
  destruct (create_user _ _) as [[doc|err] w1] eqn:Hc; try (cbn; discriminate).
  destruct (create_user_needs_email _ _ _ _ _ Hc) as [e He].
  destruct (create_user_inv _ _ _ _ _ Hc) as [Hdoc _].
  rewrite He in *. intros _. exists e, p. subst doc. repeat split. assumption.
Qed.


(** X4: what a 201 persists: a record that is unverified, holds the email
    trimmed and lower-cased and the digest, and has no [firstName],
    [lastName] or [phoneNumber] (they are not paths of the schema); the OTP
    record is keyed by the email as it was typed. *)
Theorem register_persists_schema_paths_only (req : Request) (w : World) :
  statusCode (fst (run (register req) w)) = 201 ->
  exists doc e p,
    body req !! "email" = Some e /\ body req !! "password" = Some p /\
    users (snd (run (register req) w)) = (users w ++ [doc])%list /\
    otps (snd (run (register req) w))
    = (otps w ++ [mkOtpDoc e (otp_of (S (entropy w))) (clock w)])%list /\
    doc !! "isVerified" = Some (VBool false) /\
    doc !! "email" = Some (VStr (normalized e)) /\
    doc !! "password" = Some (VStr (digest p (salt_of (entropy w)))) /\
    doc !! "firstName" = None /\ doc !! "lastName" = None /\
    doc !! "phoneNumber" = None.
Proof.
  intros H201.
  destruct (register_created_full req w H201) as (e & p & He & Hp & _ & Hrun).
  cbv zeta in Hrun.
  eexists. exists e, p. rewrite Hrun. cbn [snd users otps after_registration].
  repeat apply conj; try reflexivity; try assumption.
  - rewrite stored_other, built_isVerified; [reflexivity|].
    cbn; intuition discriminate.
  - now rewrite stored_email, built_email, He.
  - now rewrite stored_password, built_password.
  - rewrite stored_other by (cbn; intuition discriminate).
    now apply built_unknown_path.
  - rewrite stored_other by (cbn; intuition discriminate).
    now apply built_unknown_path.
  - rewrite stored_other by (cbn; intuition discriminate).
    now apply built_unknown_path.
Qed.

Lemma existsb_bool_decide_true {A} (P : A -> Prop) `{forall x, Decision (P x)}
    (l : list A) :
  List.Exists P l -> existsb (fun x => bool_decide (P x)) l = true.
Proof.
  induction 1 as [x l Hx | x l _ IH]; cbn.
  - now rewrite bool_decide_eq_true_2.
  - rewrite IH. apply orb_true_r.
Qed.

(** [User.create] rejects when the Username or the email fails a validator
    or the Username is taken. *)
Lemma create_user_rejects (req : Request) (h : string) (w : World) :
  Mongoose.path_errors Username_options (VStr <$> (trim <$> body req !! "Username")) <> []
  \/ Mongoose.path_errors email_options (VStr <$> (normalized <$> body req !! "email")) <> []
  \/ (exists un, body req !! "Username" = Some un /\
        List.Exists (fun u : gmap string value => u !! "Username" = Some (VStr (trim un)))
          (users w)) ->
  exists err,
    create_user (new_user_object req h) w = (Err err, set_entropy (S (entropy w)) w).
Proof.
  intros Hwhy. unfold create_user. rewrite build_new_user. cbv beta iota zeta.
  cbn [app]. unfold Mongoose.validate.
  cbn [userSchema List.map List.concat fst snd].
  unfold Mongoose.validate_path at 1 2. rewrite built_Username, built_email.
  destruct Hwhy as [HU | [HE | (un & Hun & Htaken)]].
  - destruct (Mongoose.path_errors Username_options _); [contradiction|].
    cbn. eexists. reflexivity.
  - destruct (Mongoose.path_errors email_options _); [contradiction|].
    destruct (Mongoose.path_errors Username_options _); cbn; eexists; reflexivity.
  - destruct (_ ++ _)%list eqn:Hval; [|eexists; reflexivity].
    assert (Hdup : Mongoose.duplicate_key userSchema (users w) (built req h)
                   = Some "Username").
    { unfold Mongoose.duplicate_key. cbn [userSchema List.find fst snd].
      rewrite built_Username, Hun. cbn [fmap option_fmap option_map].
      rewrite (existsb_bool_decide_true
                 (fun u : gmap string value => u !! "Username" = Some (VStr (trim un))))
        by assumption.
      reflexivity. }
    rewrite Hdup. eexists. reflexivity.
Qed.

(** X5: a registration that the schema or the Username index refuses is not a
    400 or a 409: with a fresh email, a missing password, a Username or
    email that fails its validators, or a Username somebody has, all end in
    500 "Internal server error" with the store untouched. *)
Theorem register_rejections_are_500 (req : Request) (w : World) :
  user_by_email w (body req !! "email") = Ok None ->
  body req !! "password" = None
  \/ Mongoose.path_errors Username_options (VStr <$> (trim <$> body req !! "Username")) <> []
  \/ Mongoose.path_errors email_options (VStr <$> (normalized <$> body req !! "email")) <> []
  \/ (exists un, body req !! "Username" = Some un /\
        List.Exists (fun u : gmap string value => u !! "Username" = Some (VStr (trim un)))
          (users w)) ->
  fst (run (register req) w) = internal_error_response /\
  same_store w (snd (run (register req) w)).
Proof.
  intros Hu Hwhy. rewrite register_cases, Hu.
  destruct (body req !! "password") as [p|] eqn:Hp; [|split; repeat split].
  destruct Hwhy as [Hnone | Hwhy]; [discriminate|].
  destruct (create_user_rejects req (digest p (salt_of (entropy w)))
              (set_entropy (S (S (entropy w))) w) Hwhy) as [err ->].
  split; repeat split.
Qed.

(** X6: registering and then logging in with the same email and password: once
    [register] answered 201, [login] finds the new record and, [bcrypt]
    accepting the digest of the same password, answers 200 with tokens for
    that record; a password [bcrypt] refuses gets 401. *)
Theorem register_then_login (req req' : Request) (w : World) :
  statusCode (fst (run (register req) w)) = 201 ->
  body req' !! "email" = body req !! "email" ->
  exists doc p,
    body req !! "password" = Some p /\
    In doc (users (snd (run (register req) w))) /\
    doc !! "password" = Some (VStr (digest p (salt_of (entropy w)))) /\
    (forall p',
       body req' !! "password" = Some p' ->
       digest_matches p' (digest p (salt_of (entropy w))) = true ->
       fst (run (login req') (snd (run (register req) w))) = login_response doc) /\
    (forall p',
       body req' !! "password" = Some p' ->
       digest_matches p' (digest p (salt_of (entropy w))) = false ->
       fst (run (login req') (snd (run (register req) w)))
       = error_response 401 "Invalid credentials").
Proof.
  intros H201 Hsame.
  destruct (register_created_full req w H201) as (e & p & He & Hp & Hnone & Hrun).
  cbv zeta in Hrun. rewrite Hrun. cbn [snd].
  set (doc := stored _ _ _) in *.
  assert (Hpw : doc !! "password" = Some (VStr (digest p (salt_of (entropy w))))).
  { subst doc. now rewrite stored_password, built_password. }
  assert (Hfind : user_by_email (after_registration w doc e) (body req' !! "email")
                  = Ok (Some doc)).
  { rewrite Hsame, He. unfold user_by_email, find_user in *.
    cbn [str fmap option_fmap option_map] in *. rewrite cast_email_filter in *.
    injection Hnone as Hnone. cbn [users after_registration].
    rewrite (find_app_none _ _ _ Hnone). cbn [List.find].
    assert (Hm : Mongoose.matches [("email", Some (VStr (normalized e)))] doc = true).
    { cbn. rewrite andb_true_r. apply bool_decide_eq_true_2.
      subst doc. now rewrite stored_email, built_email, He. }
    now rewrite Hm. }
  exists doc, p. repeat apply conj; try assumption.
  - cbn [users after_registration]. apply in_or_app. right. now left.
  - intros p' Hp' Hm. rewrite (login_ok req' _ doc Hfind); [reflexivity|].
    now rewrite Hp', Hpw; cbn; rewrite Hm.
  - intros p' Hp' Hm. rewrite (login_wrong_password req' _ doc Hfind); [reflexivity|].
    now rewrite Hp', Hpw; cbn; rewrite Hm.
Qed.

(** *** [updatePassword] *)

Definition updatePassword_branches : list (string * Z) :=
  [ ("User not found", 404); ("User is not verified", 401);
    ("New passwords do not match", 400); ("Invalid old password", 401) ].

Definition password_updated_response : Response :=
  mkResponse 200 [] (Some (JObj [("message", JStr "Password updated successfully")])).

(** Every run of [updatePassword]. *)
Lemma updatePassword_cases (req : Request) (w : World) :
  run (updatePassword req) w =
  match user_by_id w (params_id req) with
  | Err e =>
      (error_response (branch_status updatePassword_branches e 200)
         (branch_message updatePassword_branches e), logged e w)
  | Ok None =>
      (error_response 404 "User not found", logged (new_Error "User not found") w)
  | Ok (Some u) =>
      if negb (truthy (u !! "isVerified")) then
        (error_response 401 "User is not verified",
         logged (new_Error "User is not verified") w)
      else if strict_neq (body req !! "newPassword") (body req !! "confirmNewPassword") then
        (error_response 400 "New passwords do not match",
         logged (new_Error "New passwords do not match") w)
      else
        match compare_result (body req !! "oldPassword") (u !! "password") with
        | Err e =>
            (error_response (branch_status updatePassword_branches e 200)
               (branch_message updatePassword_branches e), logged e w)
        | Ok false =>
            (error_response 401 "Invalid old password",
             logged (new_Error "Invalid old password") w)
        | Ok true =>
            match body req !! "newPassword" with
            | None =>
                (error_response 200 generic_message,
                 logged (new_Error "data and salt arguments required")
                   (set_entropy (S (entropy w)) w))
            | Some np =>
                (password_updated_response,
                 set_users
                   (Mongoose.update_first
                      [("_id", Some (VObjectId (toLowerCase (params_id req))))]
                      (with_password (digest np (salt_of (entropy w))) (clock w))
                      (users w))
                   (set_entropy (S (entropy w)) w))
            end
        end
  end.
Proof.
  unfold updatePassword, User_findById, User_findOne, bcrypt_compare, bcrypt_hash,
    bcrypt_genSalt, User_findByIdAndUpdate, User_findOneAndUpdate.
  mstep. fold (user_by_id w (params_id req)). fold updatePassword_branches.
  destruct (user_by_id w (params_id req)) as [[u|]|e] eqn:Hu; mstep.
  - rewrite prop_declared by reflexivity.
    destruct (truthy (u !! "isVerified")); mstep;
      [|now rewrite respond_by_message_run].
    destruct (strict_neq _ _); mstep; [now rewrite respond_by_message_run|].
    rewrite prop_declared by reflexivity.
    destruct (compare_result _ _) as [[|]|e]; mstep;
      try (now rewrite respond_by_message_run).
    unfold hash_result.
    destruct (body req !! "newPassword") as [np|]; mstep.
    + rewrite cast_id_filter, (user_by_id_valid _ _ _ Hu). mstep. reflexivity.
    + now rewrite respond_by_message_run.
  - now rewrite respond_by_message_run.
  - now rewrite respond_by_message_run.
Qed.

Lemma strict_neq_false (a b : option string) : strict_neq a b = false -> a = b.
Proof.
  destruct a as [x|], b as [y|]; cbn; try discriminate; try reflexivity.
  intros H. apply negb_false_iff, String.eqb_eq in H. now subst.
Qed.

Lemma matches_single_insert (k0 : string) (v : option value) (k : string)
    (x : value) (d : gmap string value) :
  k <> k0 ->
  Mongoose.matches [(k0, v)] (<[k := x]> d) = Mongoose.matches [(k0, v)] d.
Proof.
  intros Hk. unfold Mongoose.matches. cbn [forallb fst snd].
  now rewrite lookup_insert_ne.
Qed.

(** C7: [updatePassword] does not answer 404 or 401 on every failed
    precondition.  A malformed id makes [User.findById] reject before the
    first check, a missing [oldPassword] makes [bcrypt.compare] reject, and
    missing new passwords pass the equality check and make [bcrypt.hash]
    reject: each time the [catch] block knows no such message, never calls
    [res.status], and the generic body goes out with status 200; nothing is
    persisted. *)
Theorem updatePassword_failures_outside_the_checks (req : Request) (w : World) :
  (Mongoose.ObjectId_isValid (params_id req) = false ->
   run (updatePassword req) w =
   (error_response 200 generic_message,
    logged (Mongoose.CastError (params_id req) "_id") w)) /\
  (forall u,
     user_by_id w (params_id req) = Ok (Some u) ->
     truthy (u !! "isVerified") = true ->
     body req !! "newPassword" = body req !! "confirmNewPassword" ->
     body req !! "oldPassword" = None ->
     run (updatePassword req) w =
     (error_response 200 generic_message,
      logged (new_Error "data and hash arguments required") w)) /\
  (forall u,
     user_by_id w (params_id req) = Ok (Some u) ->
     truthy (u !! "isVerified") = true ->
     body req !! "newPassword" = None ->
     body req !! "confirmNewPassword" = None ->
     compare_result (body req !! "oldPassword") (u !! "password") = Ok true ->
     fst (run (updatePassword req) w) = error_response 200 generic_message /\
     users (snd (run (updatePassword req) w)) = users w).
Proof.
  repeat apply conj.
  - intros Hid. rewrite updatePassword_cases, (user_by_id_invalid w _ Hid).
    reflexivity.
  - intros u Hu Hv Heq Hold. rewrite updatePassword_cases, Hu, Hv, Heq, Hold.
    now rewrite strict_neq_refl.
  - intros u Hu Hv Hn Hcf Hc. rewrite updatePassword_cases, Hu, Hv, Hn, Hcf, Hc.
    split; reflexivity.
Qed.

(** X7: [updatePassword] writes only when it is entitled to: whatever the
    request, no record is added or removed and the OTPs, timers and mails
    are untouched; the records change only if the user was found, is
    verified, the two new passwords are the same string and the old
    password matched.  The status is never 500. *)
Theorem updatePassword_writes_only_when_authorised (req : Request) (w : World) :
  length (users (snd (run (updatePassword req) w))) = length (users w) /\
  otps (snd (run (updatePassword req) w)) = otps w /\
  timers (snd (run (updatePassword req) w)) = timers w /\
  outbox (snd (run (updatePassword req) w)) = outbox w /\
  (users (snd (run (updatePassword req) w)) <> users w ->
   exists u np,
     user_by_id w (params_id req) = Ok (Some u) /\
     truthy (u !! "isVerified") = true /\
     body req !! "newPassword" = Some np /\
     body req !! "confirmNewPassword" = Some np /\
     compare_result (body req !! "oldPassword") (u !! "password") = Ok true) /\
  In (statusCode (fst (run (updatePassword req) w))) [200; 400; 401; 404].
Proof.
  rewrite updatePassword_cases.
  destruct (user_by_id w (params_id req)) as [[u|]|e] eqn:Hu.
  - destruct (truthy (u !! "isVerified")) eqn:Hv; cbn [negb];
      [|cbn; repeat split; tauto].
    destruct (strict_neq _ _) eqn:Hne; [cbn; repeat split; tauto|].
    apply strict_neq_false in Hne.
    destruct (compare_result _ _) as [[|]|e] eqn:Hc.
    + destruct (body req !! "newPassword") as [np|] eqn:Hn.
      * cbn [fst snd users set_users set_entropy otps timers outbox].
        rewrite length_update_first. repeat split; [|cbn; tauto].
        intros _. exists u, np. now rewrite <- Hne.
      * cbn; repeat split; tauto.
    + cbn; repeat split; tauto.
    + cbn [fst snd]. repeat split; try (intros H; now contradiction H).
      cbn [error_response statusCode].
      destruct (branch_status_in updatePassword_branches e 200) as [-> | H];
        cbn in *; intuition.
  - cbn; repeat split; tauto.
  - cbn [fst snd]. repeat split; try (intros H; now contradiction H).
    cbn [error_response statusCode].
    destruct (branch_status_in updatePassword_branches e 200) as [-> | H];
      cbn in *; intuition.
Qed.

(** X8: after a password change the new password logs in and the stored digest
    is what decides: for a request with the same user's email, [login]
    answers 200 when [bcrypt] accepts the submitted password against the
    new digest, and 401 when it does not. *)
Theorem updatePassword_then_login (req req' : Request) (w : World)
    (u : gmap string value) (np e : string) :
  user_by_id w (params_id req) = Ok (Some u) ->
  user_by_email w (Some e) = Ok (Some u) ->
  truthy (u !! "isVerified") = true ->
  body req !! "newPassword" = Some np ->
  body req !! "confirmNewPassword" = Some np ->
  compare_result (body req !! "oldPassword") (u !! "password") = Ok true ->
  body req' !! "email" = Some e ->
  let h := digest np (salt_of (entropy w)) in
  let u' := with_password h (clock w) u in
  user_by_email (snd (run (updatePassword req) w)) (Some e) = Ok (Some u') /\
  (forall p',
     body req' !! "password" = Some p' -> digest_matches p' h = true ->
     fst (run (login req') (snd (run (updatePassword req) w))) = login_response u') /\
  (forall p',
     body req' !! "password" = Some p' -> digest_matches p' h = false ->
     fst (run (login req') (snd (run (updatePassword req) w)))
     = error_response 401 "Invalid credentials").
Proof.
  intros Hu Hmail Hv Hn Hcf Hc He h u'.
  rewrite (updatePassword_ok req w u np) by assumption. cbn [snd]. fold h.
  assert (Hfind : user_by_email
                    (set_users
                       (Mongoose.update_first
                          [("_id", Some (VObjectId (toLowerCase (params_id req))))]
                          (with_password h (clock w)) (users w))
                       (set_entropy (S (entropy w)) w)) (Some e) = Ok (Some u')).
  { pose proof (user_by_id_valid _ _ _ Hu) as Hid.
    unfold user_by_id, user_by_email, find_user in *.
    cbn [str fmap option_fmap option_map] in *.
    rewrite cast_id_filter, Hid in Hu. rewrite cast_email_filter in *.
    injection Hu as Hu. injection Hmail as Hmail.
    cbn [users set_users set_entropy].
    rewrite (find_other_after_update _ _ _ _ u); [reflexivity| |assumption|assumption].
    intros d. unfold with_password.
    now rewrite !matches_single_insert by discriminate. }
  assert (Hpw : u' !! "password" = Some (VStr h)).
  { subst u'. unfold with_password. rewrite lookup_insert_ne by discriminate.
    apply lookup_insert_eq. }
  repeat apply conj.
  - exact Hfind.
  - intros p' Hp' Hm. rewrite <- He in Hfind.
    rewrite (login_ok req' _ u' Hfind); [reflexivity|].
    now rewrite Hp', Hpw; cbn; rewrite Hm.
  - intros p' Hp' Hm. rewrite <- He in Hfind.
    rewrite (login_wrong_password req' _ u' Hfind); [reflexivity|].
    now rewrite Hp', Hpw; cbn; rewrite Hm.
Qed.

(** *** [updateImage] *)

Definition updateImage_branches : list (string * Z) :=
  [ ("Invalid user ID format", 400); ("User not found", 404);
    ("User is not verified", 401); ("No image file provided", 400) ].

Lemma user_by_id_resolves (w : World) (id : string) :
  Mongoose.ObjectId_isValid id = true -> exists r, user_by_id w id = Ok r.
Proof.
  intros Hid. unfold user_by_id, find_user. rewrite cast_id_filter, Hid.
  eexists. reflexivity.
Qed.

Lemma map_update_first {B} (proj : gmap string value -> B) (f : object)
    (g : gmap string value -> gmap string value) (us : list (gmap string value)) :
  (forall d, proj (g d) = proj d) ->
  List.map proj (Mongoose.update_first f g us) = List.map proj us.
Proof.
  intros Hg. induction us as [|d us IH]; cbn; [reflexivity|].
  destruct (Mongoose.matches f d); cbn; [now rewrite Hg | now rewrite IH].
Qed.

(** X9: [updateImage] writes only for a verified user who sent a file: no
    record is added or removed, OTPs, timers and mails are untouched, and
    the records change only if the id is well-formed, the user was found
    and is verified and a file came with the request.  The status is never
    500. *)
Theorem updateImage_writes_only_when_authorised (req : Request) (w : World) :
  length (users (snd (run (updateImage req) w))) = length (users w) /\
  otps (snd (run (updateImage req) w)) = otps w /\
  timers (snd (run (updateImage req) w)) = timers w /\
  outbox (snd (run (updateImage req) w)) = outbox w /\
  (users (snd (run (updateImage req) w)) <> users w ->
   exists u buffer,
     user_by_id w (params_id req) = Ok (Some u) /\
     truthy (u !! "isVerified") = true /\
     file req = Some buffer) /\
  In (statusCode (fst (run (updateImage req) w))) [200; 400; 401; 404].
Proof.
  destruct (Mongoose.ObjectId_isValid (params_id req)) eqn:Hid.
  - destruct (user_by_id_resolves w _ Hid) as [[u|] Hu].
    + destruct (truthy (u !! "isVerified")) eqn:Hv.
      * destruct (file req) as [buffer|] eqn:Hf.
        -- rewrite (updateImage_ok req w u buffer) by assumption.
           cbn [fst snd users set_users otps timers outbox].
           rewrite length_update_first. repeat split; [|cbn; tauto].
           intros _. now exists u, buffer.
        -- rewrite (updateImage_no_file req w u) by assumption.
           cbn; repeat split; tauto.
      * rewrite (updateImage_unverified req w u) by assumption.
        cbn; repeat split; tauto.
    + rewrite updateImage_not_found by assumption. cbn; repeat split; tauto.
  - rewrite updateImage_invalid_id by assumption. cbn; repeat split; tauto.
Qed.

(** X10: the two update handlers touch one path each: besides [updatedAt],
    [updatePassword] changes nothing but [password] and [updateImage]
    nothing but [image], on any record. *)
Theorem updates_keep_the_other_paths (req : Request) (w : World) (path : string) :
  path <> "updatedAt" ->
  (path <> "password" ->
   List.map (fun d : gmap string value => d !! path)
     (users (snd (run (updatePassword req) w)))
   = List.map (fun d : gmap string value => d !! path) (users w)) /\
  (path <> "image" ->
   List.map (fun d : gmap string value => d !! path)
     (users (snd (run (updateImage req) w)))
   = List.map (fun d : gmap string value => d !! path) (users w)).
Proof.
  intros Hup. split; intros Hp.
  - rewrite updatePassword_cases.
    destruct (user_by_id w (params_id req)) as [[u|]|e]; try reflexivity.
    destruct (negb _); try reflexivity.
    destruct (strict_neq _ _); try reflexivity.
    destruct (compare_result _ _) as [[|]|e]; try reflexivity.
    destruct (body req !! "newPassword"); try reflexivity.
    cbn [snd users set_users]. apply map_update_first.
    intros d. unfold with_password. now rewrite !lookup_insert_ne by congruence.
  - destruct (Mongoose.ObjectId_isValid (params_id req)) eqn:Hid;
      [|now rewrite updateImage_invalid_id].
    destruct (user_by_id_resolves w _ Hid) as [[u|] Hu];
      [|now rewrite updateImage_not_found].
    destruct (truthy (u !! "isVerified")) eqn:Hv;
      [|now rewrite (updateImage_unverified req w u)].
    destruct (file req) as [buffer|] eqn:Hf;
      [|now rewrite (updateImage_no_file req w u)].
    rewrite (updateImage_ok req w u buffer) by assumption.
    cbn [snd users set_users]. apply map_update_first.
    intros d. unfold with_image. now rewrite !lookup_insert_ne by congruence.
Qed.

(** *** [deleteUser] *)

(** X11: "User Deleted Successfully" deletes nothing and spends nothing: for any
    request the OTP records are untouched and every record keeps all its
    paths but [updatedAt]; after a 200 the user is still found, a mail of
    kind [accountDeleted] has gone out, and the same request gets 200
    again. *)
Theorem deleteUser_keeps_the_user_and_the_otp (req : Request) (w : World) :
  otps (snd (run (deleteUser req) w)) = otps w /\
  (forall path, path <> "updatedAt" ->
     List.map (fun d : gmap string value => d !! path)
       (users (snd (run (deleteUser req) w)))
     = List.map (fun d : gmap string value => d !! path) (users w)) /\
  (forall u o,
     user_by_id w (params_id req) = Ok (Some u) ->
     truthy (u !! "isVerified") = true ->
     find_otp (body req !! "email") (body req !! "otp") w = Some o ->
     user_by_id (snd (run (deleteUser req) w)) (params_id req)
     = Ok (Some (<["updatedAt" := VDate (clock w)]> u)) /\
     outbox (snd (run (deleteUser req) w))
     = (outbox w ++ [mkMail (body req !! "email") (body req !! "otp")
                       (u !! "Username") "accountDeleted"])%list /\
     fst (run (deleteUser req) (snd (run (deleteUser req) w)))
     = mkResponse 200 [] (Some (JStr "User Deleted Successfully"))).
Proof.
  repeat apply conj.
  - destruct (deleteUser_world req w) as [-> | [m ->]]; reflexivity.
  - intros path Hp.
    destruct (deleteUser_world req w) as [-> | [m ->]]; [reflexivity|].
    cbn [users set_outbox set_users]. apply map_update_first.
    intros d. now rewrite lookup_insert_ne by congruence.
  - intros u o Hu Hv Ho.
    rewrite (deleteUser_otp_match req w u o) by assumption. cbn [snd].
    set (w' := set_outbox _ _).
    assert (Hu' : user_by_id w' (params_id req)
                  = Ok (Some (<["updatedAt" := VDate (clock w)]> u))).
    { pose proof (user_by_id_valid _ _ _ Hu) as Hid.
      unfold user_by_id, find_user in *. rewrite cast_id_filter, Hid in *.
      injection Hu as Hu. subst w'. cbn [users set_outbox set_users].
      rewrite find_update_first, Hu; [reflexivity|].
      intros d. now rewrite matches_id_insert by discriminate. }
    repeat apply conj; [exact Hu' | reflexivity |].
    rewrite (deleteUser_otp_match req w' _ o Hu'); [reflexivity| |exact Ho].
    now rewrite lookup_insert_ne by discriminate.
Qed.

(** X12: a delete request for an id nobody has is answered 409 "No such user
    found", and one for an unverified user 401 "Verify Your Email" whatever
    the OTP; both leave the world as it was, console included. *)
Theorem deleteUser_refusals (req : Request) (w : World) :
  (user_by_id w (params_id req) = Ok None ->
   run (deleteUser req) w = (mkResponse 409 [] (Some (JStr "No such user found")), w)) /\
  (forall u,
     user_by_id w (params_id req) = Ok (Some u) ->
     truthy (u !! "isVerified") = false ->
     run (deleteUser req) w = (mkResponse 401 [] (Some (JStr "Verify Your Email")), w)).
Proof.
  split.
  - apply deleteUser_not_found.
  - intros u. apply deleteUser_unverified.
Qed.

(** *** [userInfo] *)

(** X13: [userInfo] hands a document only to its owner: when the body is
    [{ data: d }], the token's audience claim is the path id, [d] is the
    stored record with that id and it is verified.  The handler reads
    only: the store is as it was, and the status is never 500. *)
Theorem userInfo_discloses_only_to_the_owner (req : Request) (w : World) :
  (forall d,
     sent (fst (run (userInfo req) w)) = Some (JObj [("data", JDoc d)]) ->
     payload_aud req = Some (params_id req) /\
     user_by_id w (params_id req) = Ok (Some d) /\
     d !! "_id" = Some (VObjectId (toLowerCase (params_id req))) /\
     truthy (d !! "isVerified") = true) /\
  same_store w (snd (run (userInfo req) w)) /\
  In (statusCode (fst (run (userInfo req) w))) [200; 400; 401; 404].
Proof.
  assert (Hcases :
    (exists code msg, run (userInfo req) w
       = (error_response code msg, logged (new_Error msg) w)
       /\ In code [400; 401; 404])
    \/ (exists u, run (userInfo req) w
          = (mkResponse 200 [] (Some (JObj [("data", JDoc u)])), w)
          /\ payload_aud req = Some (params_id req)
          /\ user_by_id w (params_id req) = Ok (Some u)
          /\ truthy (u !! "isVerified") = true)).
  { destruct (Mongoose.ObjectId_isValid (params_id req)) eqn:Hid.
    - destruct (decide (payload_aud req = Some (params_id req))) as [Haud|Haud].
      + destruct (user_by_id_resolves w _ Hid) as [[u|] Hu].
        * destruct (truthy (u !! "isVerified")) eqn:Hv.
          -- right. exists u. now rewrite (userInfo_ok req w u).
          -- left. do 2 eexists. rewrite (userInfo_unverified req w u) by assumption.
             split; [reflexivity | cbn; tauto].
        * left. do 2 eexists. rewrite userInfo_not_found by assumption.
          split; [reflexivity | cbn; tauto].
      + left. do 2 eexists. rewrite userInfo_bad_audience by assumption.
        split; [reflexivity | cbn; tauto].
    - left. do 2 eexists. rewrite userInfo_invalid_id by assumption.
      split; [reflexivity | cbn; tauto]. }
  destruct Hcases as [(code & msg & -> & Hcode) | (u & -> & Haud & Hu & Hv)].
  - split; [|split].
    + intros d H. cbn in H. discriminate.
    + repeat split.
    + cbn in *. tauto.
  - split; [|split].
    + intros d H. cbn in H. injection H as <-.
      repeat apply conj; try assumption.
      now apply (user_by_id_stored w (params_id req)).
    + apply same_store_refl.
    + cbn. tauto.
Qed.

(** *** [refreshroute] *)

(** X14: every refusal of [refreshroute]: no cookie or an empty one is 401
    "Refresh token missing"; a verification that throws is 401 "Invalid
    refresh token" for a [JsonWebTokenError], 401 "Refresh token expired"
    for a [TokenExpiredError] and 500 "Internal Server Error" for anything
    else; a verification that resolves to no user id is 401 "Invalid
    refresh token".  No cookie is set in any of them. *)
Theorem refreshroute_refusals (req : Request) (w : World) :
  (cookie_RefreshToken req = None \/ cookie_RefreshToken req = Some "" ->
   fst (run (refreshroute req) w) = error_response 401 "Refresh token missing") /\
  (forall token e,
     cookie_RefreshToken req = Some token -> token <> "" ->
     verifyRefreshToken token = Err e ->
     fst (run (refreshroute req) w) =
     if String.eqb (name e) "JsonWebTokenError"
     then error_response 401 "Invalid refresh token"
     else if String.eqb (name e) "TokenExpiredError"
          then error_response 401 "Refresh token expired"
          else error_response 500 "Internal Server Error") /\
  (forall token,
     cookie_RefreshToken req = Some token -> token <> "" ->
     verifyRefreshToken token = Ok None \/ verifyRefreshToken token = Ok (Some "") ->
     fst (run (refreshroute req) w) = error_response 401 "Invalid refresh token").
Proof.
  repeat apply conj.
  - intros [H | H]; unfold refreshroute; rewrite H; reflexivity.
  - intros token e Hc Ht He. unfold refreshroute. rewrite Hc.
    apply String.eqb_neq in Ht. rewrite Ht. mstep. rewrite He. mstep.
    destruct (String.eqb (name e) "JsonWebTokenError"); [reflexivity|].
    destruct (String.eqb (name e) "TokenExpiredError"); reflexivity.
  - intros token Hc Ht Hv. unfold refreshroute. rewrite Hc.
    apply String.eqb_neq in Ht. rewrite Ht. mstep.
    destruct Hv as [-> | ->]; reflexivity.
Qed.


(** *** The closure handed to [setTimeout], and [logout] *)

(** X16: were the deferred closure to run, it would not do what its text says:
    with a well-formed id the User record is removed, then the unbound
    identifier [Email] throws and the error is only logged; with a
    malformed id nothing is removed.  The captured response is never
    written: no cookie is cleared and no body sent. *)
Theorem deferred_closure_clears_no_cookie (id : string)
    (userDetails : gmap string value) (stale : Response) (w : World) :
  fst (run_job (DeletionJob id userDetails) stale w) = stale /\
  otps (snd (run_job (DeletionJob id userDetails) stale w)) = otps w /\
  (Mongoose.ObjectId_isValid id = true ->
   users (snd (run_job (DeletionJob id userDetails) stale w))
   = Mongoose.delete_first [("_id", Some (VObjectId (toLowerCase id)))] (users w) /\
   console (snd (run_job (DeletionJob id userDetails) stale w))
   = (console w ++ ["Error in the setTimeoutEmail is not defined"])%list) /\
  (Mongoose.ObjectId_isValid id = false ->
   users (snd (run_job (DeletionJob id userDetails) stale w)) = users w).
Proof.
  unfold run_job, deferred_deletion, User_deleteOne, Email_deleteOne.
  mstep. rewrite cast_id_filter.
  destruct (Mongoose.ObjectId_isValid id); mstep; destruct stale;
    repeat split; discriminate.
Qed.

(** X17: [logout] asks nothing: for any request and world it answers 200 and
    sets, emptied and expired, exactly the two cookies a successful [login]
    sets; the world is untouched. *)
Theorem logout_clears_what_login_sets (req : Request) (w : World)
    (u : gmap string value) :
  snd (run (logout req) w) = w /\
  statusCode (fst (run (logout req) w)) = 200 /\
  List.map cookie_name (cookies (fst (run (logout req) w)))
  = List.map cookie_name (cookies (login_response u)) /\
  List.Forall (fun c => cookie_value c = "" /\ expires (cookie_options c) = Some 0
                        /\ httpOnly (cookie_options c) = true)
    (cookies (fst (run (logout req) w))).
Proof.
  repeat apply conj; try reflexivity.
  repeat constructor.
Qed.

End Coverage.

(** ** More of the handlers, at concrete inputs *)

Module CoverageWitnesses.

Import Fixture.

Ltac eval_eq := vm_compute; reflexivity.

Definition login_as (email password : string) : Request :=
  post [("email", email); ("password", password)].

(** Carol wants the Username Alice has. *)
Definition carol : Request :=
  post [ ("firstName", "Carol"); ("lastName", "Singer"); ("Username", "alice");
         ("phoneNumber", "5550102"); ("email", "carol@x.com");
         ("password", "anotherpass1") ].

Definition delete_nobody : Request :=
  on_id "0123456789abcdef01234567" [("email", "Alice@X.com"); ("otp", alice_otp)].

Definition refresh_with (token : string) : Request :=
  mkRequest "" ∅ None None (Some token).


Lemma alice_registered_201 :
  statusCode (fst (run (register (E := toy) alice) empty_world)) = 201.
Proof. eval_eq. Qed.

Lemma alice_found_by_email :
  user_by_email (E := toy) verified (Some "alice@x.com") = Ok (Some (alice_doc verified)).
Proof. eval_eq. Qed.

Lemma login_failure_issues_no_token_witness :
  fst (run (login (E := toy) (login_as "alice@x.com" "wrongpass")) registered)
  = error_response 401 "Invalid credentials".
Proof.
  assert (Hu : user_by_email (E := toy) registered
                 (body (login_as "alice@x.com" "wrongpass") !! "email")
               = Ok (Some (alice_doc registered))) by eval_eq.
  assert (Hc : compare_result (E := toy)
                 (body (login_as "alice@x.com" "wrongpass") !! "password")
                 (alice_doc registered !! "password") = Ok false) by eval_eq.
  exact (proj1 (proj2 (login_failure_issues_no_token (E := toy)
                         (login_as "alice@x.com" "wrongpass") registered)) _ Hu Hc).
Defined.

Definition change_password_of (id : string) : Request :=
  on_id id [ ("oldPassword", "longenough1"); ("newPassword", "evenlonger22");
             ("confirmNewPassword", "evenlonger22") ].

Definition change_without_old_password : Request :=
  on_id alice_id [("newPassword", "evenlonger22"); ("confirmNewPassword", "evenlonger22")].

(** A password change on the id [abc], and one that leaves [oldPassword]
    out: neither 404 nor 401, and Alice's record is as it was. *)
Lemma updatePassword_failures_outside_the_checks_witness :
  run (updatePassword (E := toy) (change_password_of "abc")) verified
  = (error_response 200 generic_message,
     logged (Mongoose.CastError "abc" "_id") verified) /\
  run (updatePassword (E := toy) change_without_old_password) verified
  = (error_response 200 generic_message,
     logged (new_Error "data and hash arguments required") verified).
Proof.
  assert (Hid : Mongoose.ObjectId_isValid (params_id (change_password_of "abc")) = false)
    by eval_eq.
  assert (Heq : body change_without_old_password !! "newPassword"
                = body change_without_old_password !! "confirmNewPassword") by eval_eq.
  assert (Hold : body change_without_old_password !! "oldPassword" = None) by eval_eq.
  split.
  - exact (proj1 (updatePassword_failures_outside_the_checks (E := toy)
                    (change_password_of "abc") verified) Hid).
  - exact (proj1 (proj2 (updatePassword_failures_outside_the_checks (E := toy)
                           change_without_old_password verified))
             _ Witnesses.alice_is_stored Witnesses.alice_is_verified Heq Hold).
Defined.


Lemma register_persists_schema_paths_only_witness :
  exists doc,
    users registered = [doc] /\
    doc !! "isVerified" = Some (VBool false) /\
    doc !! "email" = Some (VStr "alice@x.com") /\
    doc !! "firstName" = None /\ doc !! "lastName" = None /\
    doc !! "phoneNumber" = None.
Proof.
  destruct (register_persists_schema_paths_only (E := toy) alice empty_world
              alice_registered_201)
    as (doc & e & p & He & _ & Hu & _ & Hv & Hm & _ & Hf & Hl & Hn).
  exists doc. vm_compute in He. injection He as <-.
  repeat split; assumption.
Defined.

Lemma register_rejections_are_500_witness :
  fst (run (register (E := toy) carol) registered) = internal_error_response /\
  same_store registered (snd (run (register (E := toy) carol) registered)).
Proof.
  apply (register_rejections_are_500 (E := toy) carol registered).
  - eval_eq.
  - right. right. right. exists "alice". split; [eval_eq|].
    apply List.Exists_exists. exists (alice_doc registered).
    split; [left; eval_eq | eval_eq].
Defined.

Lemma register_then_login_witness :
  statusCode (fst (run (login (E := toy) alice) registered)) = 200 /\
  fst (run (login (E := toy) (login_as "Alice@X.com" "wrongpass")) registered)
  = error_response 401 "Invalid credentials".
Proof.
  split.
  - destruct (register_then_login (E := toy) alice alice empty_world
                alice_registered_201 eq_refl) as (doc & p & Hp & _ & _ & Hok & _).
    vm_compute in Hp. injection Hp as <-.
    change registered with (snd (run (register (E := toy) alice) empty_world)).
    rewrite (Hok "longenough1"); [reflexivity | eval_eq | eval_eq].
  - assert (Hsame : body (login_as "Alice@X.com" "wrongpass") !! "email"
                    = body alice !! "email") by eval_eq.
    destruct (register_then_login (E := toy) alice
                (login_as "Alice@X.com" "wrongpass") empty_world
                alice_registered_201 Hsame) as (doc & p & Hp & _ & _ & _ & Hbad).
    vm_compute in Hp. injection Hp as <-.
    exact (Hbad "wrongpass" ltac:(eval_eq) ltac:(eval_eq)).
Defined.

Lemma updatePassword_writes_only_when_authorised_witness :
  length (users (snd (run (updatePassword (E := toy) password_change) registered)))
  = length (users registered) /\
  users (snd (run (updatePassword (E := toy) password_change) registered))
  = users registered.
Proof.
  pose proof (updatePassword_writes_only_when_authorised (E := toy)
                password_change registered) as (Hlen & _ & _ & _ & Hwhy & _).
  split; [exact Hlen|].
  destruct (decide (users (snd (run (updatePassword (E := toy) password_change)
                                  registered)) = users registered)) as [Heq|Hne];
    [exact Heq|].
  destruct (Hwhy Hne) as (u & np & Hu & Hv & _).
  pose proof Witnesses.alice_is_registered as Ha.
  change alice_id with (params_id password_change) in Ha.
  rewrite Ha in Hu. injection Hu as <-.
  rewrite Witnesses.alice_is_unverified in Hv. discriminate Hv.
Defined.

Lemma updatePassword_then_login_witness :
  statusCode
    (fst (run (login (E := toy) (login_as "alice@x.com" "evenlonger22"))
            (snd (run (updatePassword (E := toy) password_change) verified)))) = 200 /\
  fst (run (login (E := toy) (login_as "alice@x.com" "longenough1"))
         (snd (run (updatePassword (E := toy) password_change) verified)))
  = error_response 401 "Invalid credentials".
Proof.
  assert (Hn : body password_change !! "newPassword" = Some "evenlonger22") by eval_eq.
  assert (Hcf : body password_change !! "confirmNewPassword" = Some "evenlonger22")
    by eval_eq.
  assert (Hc : compare_result (E := toy) (body password_change !! "oldPassword")
                 (alice_doc verified !! "password") = Ok true) by eval_eq.
  split.
  - destruct (updatePassword_then_login (E := toy) password_change
                (login_as "alice@x.com" "evenlonger22") verified _ _ _
                Witnesses.alice_is_stored alice_found_by_email
                Witnesses.alice_is_verified Hn Hcf Hc eq_refl) as (_ & Hok & _).
    rewrite (Hok "evenlonger22"); [reflexivity | eval_eq | eval_eq].
  - destruct (updatePassword_then_login (E := toy) password_change
                (login_as "alice@x.com" "longenough1") verified _ _ _
                Witnesses.alice_is_stored alice_found_by_email
                Witnesses.alice_is_verified Hn Hcf Hc eq_refl) as (_ & _ & Hbad).
    exact (Hbad "longenough1" ltac:(eval_eq) ltac:(eval_eq)).
Defined.

Lemma updateImage_writes_only_when_authorised_witness :
  users (snd (run (updateImage (E := toy) image_upload) registered)) = users registered.
Proof.
  pose proof (updateImage_writes_only_when_authorised (E := toy)
                image_upload registered) as (_ & _ & _ & _ & Hwhy & _).
  destruct (decide (users (snd (run (updateImage (E := toy) image_upload)
                                  registered)) = users registered)) as [Heq|Hne];
    [exact Heq|].
  destruct (Hwhy Hne) as (u & buffer & Hu & Hv & _).
  pose proof Witnesses.alice_is_registered as Ha.
  change alice_id with (params_id image_upload) in Ha.
  rewrite Ha in Hu. injection Hu as <-.
  rewrite Witnesses.alice_is_unverified in Hv. discriminate Hv.
Defined.

Lemma updates_keep_the_other_paths_witness :
  List.map (fun d : gmap string value => d !! "isVerified")
    (users (snd (run (updatePassword (E := toy) password_change) verified)))
  = List.map (fun d : gmap string value => d !! "isVerified") (users verified) /\
  List.map (fun d : gmap string value => d !! "password")
    (users (snd (run (updateImage (E := toy) image_upload) verified)))
  = List.map (fun d : gmap string value => d !! "password") (users verified).
Proof.
  split.
  - apply (updates_keep_the_other_paths (E := toy) password_change verified
             "isVerified"); discriminate.
  - apply (updates_keep_the_other_paths (E := toy) image_upload verified
             "password"); discriminate.
Defined.

Lemma deleteUser_keeps_the_user_and_the_otp_witness :
  otps (snd (run (deleteUser (E := toy) delete_with_otp) verified)) = otps verified /\
  fst (run (deleteUser (E := toy) delete_with_otp)
         (snd (run (deleteUser (E := toy) delete_with_otp) verified)))
  = mkResponse 200 [] (Some (JStr "User Deleted Successfully")).
Proof.
  assert (Ho : find_otp (body delete_with_otp !! "email") (body delete_with_otp !! "otp")
                 verified = Some (mkOtpDoc "Alice@X.com" alice_otp 1700000000000))
    by eval_eq.
  pose proof (deleteUser_keeps_the_user_and_the_otp (E := toy) delete_with_otp verified)
    as (Hotp & _ & H).
  split; [exact Hotp|].
  exact (proj2 (proj2 (H _ _ Witnesses.alice_is_stored Witnesses.alice_is_verified Ho))).
Defined.

Lemma deleteUser_refusals_witness :
  run (deleteUser (E := toy) delete_nobody) verified
  = (mkResponse 409 [] (Some (JStr "No such user found")), verified) /\
  run (deleteUser (E := toy) delete_with_otp) registered
  = (mkResponse 401 [] (Some (JStr "Verify Your Email")), registered).
Proof.
  split.
  - apply (proj1 (deleteUser_refusals (E := toy) delete_nobody verified)). eval_eq.
  - exact (proj2 (deleteUser_refusals (E := toy) delete_with_otp registered) _
             Witnesses.alice_is_registered Witnesses.alice_is_unverified).
Defined.

Lemma userInfo_discloses_only_to_the_owner_witness :
  payload_aud info_request = Some alice_id /\
  user_by_id (E := toy) verified alice_id = Ok (Some (alice_doc verified)) /\
  alice_doc verified !! "_id" = Some (VObjectId alice_id) /\
  truthy (alice_doc verified !! "isVerified") = true.
Proof.
  assert (Hsent : sent (fst (run (userInfo (E := toy) info_request) verified))
                  = Some (JObj [("data", JDoc (alice_doc verified))])) by eval_eq.
  exact (proj1 (userInfo_discloses_only_to_the_owner (E := toy) info_request verified)
           _ Hsent).
Defined.

Lemma refreshroute_refusals_witness :
  fst (run (refreshroute (E := toy) (refresh_with "garbage")) verified)
  = error_response 401 "Invalid refresh token" /\
  fst (run (refreshroute (E := toy) (refresh_with "")) verified)
  = error_response 401 "Refresh token missing".
Proof.
  assert (Hv : verifyRefreshToken (Externals := toy) "garbage"
               = Err (mkError "JsonWebTokenError" "jwt malformed")) by eval_eq.
  split.
  - exact (proj1 (proj2 (refreshroute_refusals (E := toy) (refresh_with "garbage")
                           verified)) "garbage" _ eq_refl ltac:(discriminate) Hv).
  - exact (proj1 (refreshroute_refusals (E := toy) (refresh_with "") verified)
             (or_intror eq_refl)).
Defined.


Lemma deferred_closure_clears_no_cookie_witness :
  users (snd (run_job (E := toy) (DeletionJob alice_id (alice_doc verified))
                (mkResponse 200 [] (Some (JStr "User Deleted Successfully"))) verified))
  = [] /\
  cookies (fst (run_job (E := toy) (DeletionJob alice_id (alice_doc verified))
                  (mkResponse 200 [] (Some (JStr "User Deleted Successfully"))) verified))
  = [].
Proof.
  pose proof (deferred_closure_clears_no_cookie (E := toy) alice_id
                (alice_doc verified)
                (mkResponse 200 [] (Some (JStr "User Deleted Successfully"))) verified)
    as (Hres & _ & Hvalid & _).
  split.
  - rewrite (proj1 (Hvalid ltac:(eval_eq))). eval_eq.
  - now rewrite Hres.
Defined.

End CoverageWitnesses.
